(** * amazon_pay.report_client: the MWS Reports client

    A shallow embedding of [src/amazon_pay/report_client.py] (the class
    [ReportClient]) and the properties of its configuration resolver,
    endpoint builder, User-Agent builder, report operations and dispatch
    routine.

    Python scalars are a small tagged union, the instance is a record of
    its attributes, dictionaries that are iterated or handed to the
    collaborator are insertion-ordered association lists, the static
    region table and [os.environ] are finite maps, and exceptions are an
    explicit error result. *)

From Stdlib Require Import ZArith String Ascii List Bool.
From stdpp Require Import base strings gmap list pretty.

Open Scope string_scope.

(** ** Python values *)

(** The scalar values the client receives and passes on: [None], booleans,
    integers and strings. *)
Inductive pyval : Type :=
  | PyNone
  | PyBool (b : bool)
  | PyInt (z : Z)
  | PyStr (s : string).

(** [v is None] *)
Definition is_None (v : pyval) : bool :=
  match v with PyNone => true | _ => false end.

(** [v is not False] *)
Definition is_not_False (v : pyval) : bool :=
  match v with PyBool false => false | _ => true end.

(** [bool(v)]: Python's truth value. *)
Definition truthy (v : pyval) : bool :=
  match v with
  | PyNone => false
  | PyBool b => b
  | PyInt z => negb (Z.eqb z 0)
  | PyStr s => negb (String.eqb s "")
  end.

(** [str(v)], which is also what a bare [{}] of [str.format] inserts. *)
Definition str (v : pyval) : string :=
  match v with
  | PyNone => "None"
  | PyBool true => "True"
  | PyBool false => "False"
  | PyInt z => pretty z
  | PyStr s => s
  end.

(** [type(v).__name__], as it appears in an attribute error. *)
Definition type_name (v : pyval) : string :=
  match v with
  | PyNone => "NoneType"
  | PyBool _ => "bool"
  | PyInt _ => "int"
  | PyStr _ => "str"
  end.

(** [v in ['', None]] *)
Definition in_empty_or_None (v : pyval) : bool :=
  match v with
  | PyNone => true
  | PyStr s => String.eqb s ""
  | _ => false
  end.

(** ** Substrings *)

Fixpoint starts_with (t s : string) {struct s} : bool :=
  match s, t with
  | EmptyString, _ => true
  | String a s', String b t' => Ascii.eqb a b && starts_with t' s'
  | String _ _, EmptyString => false
  end.

(** [s in t] on strings. *)
Fixpoint contains (t s : string) : bool :=
  starts_with t s ||
  match t with
  | EmptyString => false
  | String _ t' => contains t' s
  end.

(** ** Exceptions and results *)

Inductive exn : Type :=
  | ValueError (msg : string)
  | KeyError (msg : string)
  | AttributeError (msg : string)
  | NameError (msg : string)
  | OSError (msg : string).

Inductive result (A : Type) : Type :=
  | Ok (a : A)
  | Raise (e : exn).
Arguments Ok {A} a.
Arguments Raise {A} e.

Definition result_bind {A B} (m : result A) (k : A -> result B) : result B :=
  match m with
  | Ok a => k a
  | Raise e => Raise e
  end.

Notation "'try!' x <- m ; k" := (result_bind m (fun x => k))
  (at level 10, x name, m at level 100, k at level 200,
   format "'[v' 'try!'  x  <-  m ; '/' k ']'").

Definition succeeds {A} (m : result A) : bool :=
  match m with Ok _ => true | Raise _ => false end.

(** ** Dictionaries *)

(** A Python [dict] with string keys, in insertion order. *)
Definition pydict (V : Type) : Type := list (string * V).

(** [d.get(k)]: [None] when [k] is not a key. *)
Fixpoint dict_get {V} (k : string) (d : pydict V) : option V :=
  match d with
  | [] => None
  | (k', v) :: d' => if String.eqb k k' then Some v else dict_get k d'
  end.

(** [d[k] = v]: overwrite in place, or append a new key. *)
Fixpoint dict_set {V} (k : string) (v : V) (d : pydict V) : pydict V :=
  match d with
  | [] => [(k, v)]
  | (k', v') :: d' =>
      if String.eqb k k' then (k', v) :: d' else (k', v') :: dict_set k v d'
  end.

(** [d.keys()] *)
Definition keys {V} (d : pydict V) : list string := map fst d.

(** [k in d] *)
Definition has_key {V} (k : string) (d : pydict V) : bool :=
  match dict_get k d with Some _ => true | None => false end.

(** ** What the client imports

    [amazon_pay.ap_region], [amazon_pay.report_version] and the standard
    modules [logging], [os], [sys] and [platform] are not part of
    [report_client.py]; the client is parameterised by what it reads from
    them. *)

Module ap_version.
(** [ap_version.versions]: the three entries the client reads. *)
Record versions : Type := {
  api_version : string;
  api_name : string;
  application_version : string
}.
End ap_version.

Module logging.
Record module : Type := {
  (** [getattr(logging, s.upper(), None)] for a string [s]. *)
  getattr_upper : string -> pyval;
  (** [logger.setLevel(level); fh = logging.FileHandler(name);
      logger.addHandler(fh); fh.setLevel(level)]: the exception raised,
      if any. *)
  add_file_handler : pyval -> pyval -> option exn;
  (** The same with [logging.StreamHandler(sys.stdout)]. *)
  add_stream_handler : pyval -> option exn
}.
End logging.

Module host.
Record process : Type := {
  (** [os.environ] *)
  environ : gmap string string;
  (** [sys.version_info] *)
  version_info : list pyval;
  (** [platform.system()] *)
  system : string;
  (** [platform.release()] *)
  release : string
}.
End host.

(** ** The constructor's arguments *)

Module Init.
Record args : Type := {
  mws_access_key : pyval;
  mws_secret_key : pyval;
  merchant_id : pyval;
  region : pyval;
  currency_code : pyval;
  sandbox : pyval;
  handle_throttle : pyval;
  application_name : pyval;
  application_version : pyval;
  log_enabled : pyval;
  log_file_name : pyval;
  log_level : pyval
}.

(** The defaults of the signature of [__init__]. *)
Definition defaults : args := {|
  mws_access_key := PyNone;
  mws_secret_key := PyNone;
  merchant_id := PyNone;
  region := PyNone;
  currency_code := PyNone;
  sandbox := PyBool false;
  handle_throttle := PyBool true;
  application_name := PyNone;
  application_version := PyNone;
  log_enabled := PyBool false;
  log_file_name := PyNone;
  log_level := PyNone
|}.

(** The local namespace [eval(param)] reads. *)
Definition locals (a : args) : pydict pyval :=
  [ ("mws_access_key", mws_access_key a);
    ("mws_secret_key", mws_secret_key a);
    ("merchant_id", merchant_id a);
    ("region", region a);
    ("currency_code", currency_code a);
    ("sandbox", sandbox a);
    ("handle_throttle", handle_throttle a);
    ("application_name", application_name a);
    ("application_version", application_version a);
    ("log_enabled", log_enabled a);
    ("log_file_name", log_file_name a);
    ("log_level", log_level a) ].

(** The same call with other [application_name], [application_version]. *)
Definition with_application (name version : pyval) (a : args) : args := {|
  mws_access_key := mws_access_key a;
  mws_secret_key := mws_secret_key a;
  merchant_id := merchant_id a;
  region := region a;
  currency_code := currency_code a;
  sandbox := sandbox a;
  handle_throttle := handle_throttle a;
  application_name := name;
  application_version := version;
  log_enabled := log_enabled a;
  log_file_name := log_file_name a;
  log_level := log_level a
|}.

(** The same call with other [log_enabled], [log_file_name], [log_level]. *)
Definition with_logging (enabled file_name level : pyval) (a : args) : args := {|
  mws_access_key := mws_access_key a;
  mws_secret_key := mws_secret_key a;
  merchant_id := merchant_id a;
  region := region a;
  currency_code := currency_code a;
  sandbox := sandbox a;
  handle_throttle := handle_throttle a;
  application_name := application_name a;
  application_version := application_version a;
  log_enabled := enabled;
  log_file_name := file_name;
  log_level := level
|}.

(** The same call with other [mws_access_key] and [region]. *)
Definition with_key_region (key code : pyval) (a : args) : args := {|
  mws_access_key := key;
  mws_secret_key := mws_secret_key a;
  merchant_id := merchant_id a;
  region := code;
  currency_code := currency_code a;
  sandbox := sandbox a;
  handle_throttle := handle_throttle a;
  application_name := application_name a;
  application_version := application_version a;
  log_enabled := log_enabled a;
  log_file_name := log_file_name a;
  log_level := log_level a
|}.
End Init.

(** ** The instance *)

(** The attributes of a [ReportClient]. *)
Record ReportClient : Type := {
  mws_access_key : pyval;
  mws_secret_key : pyval;
  merchant_id : pyval;
  region : pyval;
  currency_code : pyval;
  _region : string;
  _region_code : pyval;
  handle_throttle : pyval;
  application_name : pyval;
  application_version : pyval;
  _sandbox : pyval;
  _api_version : string;
  _api_name : string;
  _application_library_version : string;
  _mws_endpoint : pyval;
  _user_agent : string;
  _headers : pydict pyval
}.

(** [self._sandbox = value] *)
Definition set__sandbox (value : pyval) (self : ReportClient) : ReportClient :=
  {| mws_access_key := mws_access_key self;
     mws_secret_key := mws_secret_key self;
     merchant_id := merchant_id self;
     region := region self;
     currency_code := currency_code self;
     _region := _region self;
     _region_code := _region_code self;
     handle_throttle := handle_throttle self;
     application_name := application_name self;
     application_version := application_version self;
     _sandbox := value;
     _api_version := _api_version self;
     _api_name := _api_name self;
     _application_library_version := _application_library_version self;
     _mws_endpoint := _mws_endpoint self;
     _user_agent := _user_agent self;
     _headers := _headers self |}.

(** [self._mws_endpoint = value] *)
Definition set__mws_endpoint (value : pyval) (self : ReportClient) : ReportClient :=
  {| mws_access_key := mws_access_key self;
     mws_secret_key := mws_secret_key self;
     merchant_id := merchant_id self;
     region := region self;
     currency_code := currency_code self;
     _region := _region self;
     _region_code := _region_code self;
     handle_throttle := handle_throttle self;
     application_name := application_name self;
     application_version := application_version self;
     _sandbox := _sandbox self;
     _api_version := _api_version self;
     _api_name := _api_name self;
     _application_library_version := _application_library_version self;
     _mws_endpoint := value;
     _user_agent := _user_agent self;
     _headers := _headers self |}.

(** [self._user_agent = ua; self._headers = hs] *)
Definition set__user_agent_headers (ua : string) (hs : pydict pyval)
    (self : ReportClient) : ReportClient :=
  {| mws_access_key := mws_access_key self;
     mws_secret_key := mws_secret_key self;
     merchant_id := merchant_id self;
     region := region self;
     currency_code := currency_code self;
     _region := _region self;
     _region_code := _region_code self;
     handle_throttle := handle_throttle self;
     application_name := application_name self;
     application_version := application_version self;
     _sandbox := _sandbox self;
     _api_version := _api_version self;
     _api_name := _api_name self;
     _application_library_version := _application_library_version self;
     _mws_endpoint := _mws_endpoint self;
     _user_agent := ua;
     _headers := hs |}.

(** ** Endpoint and sandbox property *)

(** ['https://{}/{}/{}'.format(region, api_name, api_version)] *)
Definition endpoint_url (region_host name version : string) : string :=
  "https://" +:+ region_host +:+ "/" +:+ name +:+ "/" +:+ version.

Definition _set_endpoint (self : ReportClient) : ReportClient :=
  set__mws_endpoint
    (PyStr (endpoint_url (_region self) (_api_name self) (_api_version self)))
    self.

(** The [sandbox] property: getter and setter. *)
Definition sandbox (self : ReportClient) : pyval := _sandbox self.

Definition sandbox_setter (value : pyval) (self : ReportClient) : ReportClient :=
  _set_endpoint (set__sandbox value self).

(** [self.sandbox = v] for each [v] of [values], in turn. *)
Definition after_setting (values : list pyval) (self : ReportClient)
    : ReportClient :=
  foldl (fun self value => sandbox_setter value self) self values.

(** ** Construction *)

(** The [env_param_map] of [__init__]; [for param in env_param_map] visits
    its keys in this order. *)
Definition env_param_map : pydict string :=
  [ ("mws_access_key", "AP_MWS_ACCESS_KEY");
    ("mws_secret_key", "AP_MWS_SECRET_KEY");
    ("merchant_id", "AP_MERCHANT_ID");
    ("region", "AP_REGION");
    ("currency_code", "AP_CURRENCY_CODE") ].

(** [eval(param)] inside [__init__]. *)
Definition eval (a : Init.args) (param : string) : result pyval :=
  match dict_get param (Init.locals a) with
  | Some v => Ok v
  | None => Raise (NameError ("name '" +:+ param +:+ "' is not defined"))
  end.

(** [getattr(self, name)] on the attributes set so far. *)
Definition getattr (self : gmap string pyval) (name : string) : result pyval :=
  match self !! name with
  | Some v => Ok v
  | None =>
      Raise (AttributeError
               ("'ReportClient' object has no attribute '" +:+ name +:+ "'"))
  end.

(** ['{0} ({1}Python/{2}; {3}/{4})'] with the SDK prefix, filled in. *)
Definition format_user_agent (a0 a1 a2 a3 a4 : string) : string :=
  "amazon-pay-sdk-python/" +:+ a0 +:+ " (" +:+ a1 +:+ "Python/" +:+ a2
    +:+ "; " +:+ a3 +:+ "/" +:+ a4 +:+ ")".

(** Lines 147 to 158: the optional application name and version. *)
Definition app_name_and_ver (application_name application_version : pyval)
    : string :=
  let s := "" in
  let s :=
    if negb (in_empty_or_None application_name) then
      let s := s +:+ str application_name in
      if negb (in_empty_or_None application_version)
      then (s +:+ "/") +:+ str application_version
      else s
    else if negb (in_empty_or_None application_version) then
      s +:+ str application_version
    else s in
  if negb (in_empty_or_None application_name)
     || negb (in_empty_or_None application_version)
  then s +:+ "; "
  else s.

(** The slot [{1}] of the template, as the template describes it: nothing,
    or the application name, its version after a slash when there is one
    (the version alone when there is no name), closed by a semicolon and a
    space. *)
Definition spec_app_part (application_name application_version : pyval)
    : string :=
  match in_empty_or_None application_name,
        in_empty_or_None application_version with
  | true, true => ""
  | false, true => str application_name +:+ "; "
  | false, false =>
      str application_name +:+ "/" +:+ str application_version +:+ "; "
  | true, false => str application_version +:+ "; "
  end.

Section Client.

Variable regions : gmap string string.
Variable versions : ap_version.versions.
Variable log : logging.module.
Variable proc : host.process.

(** [os.environ[env_param_map[param]]], [None] when either lookup
    fails. *)
Definition from_environ (param : string) : option string :=
  dict_get param env_param_map ≫= (λ var, host.environ proc !! var).

(** The loop of lines 101 to 108, over the keys still to visit; [self]
    holds the attributes set so far. The bare [except] turns every failure
    of the environment lookup into the value error. *)
Fixpoint resolve (a : Init.args) (params : list string)
    (self : gmap string pyval) : result (gmap string pyval) :=
  match params with
  | [] => Ok self
  | param :: rest =>
      try! v <- eval a param;
      if is_None v then
        match from_environ param with
        | Some s => resolve a rest (<[param := PyStr s]> self)
        | None => Raise (ValueError ("Invalid " +:+ param +:+ "."))
        end
      else resolve a rest (<[param := v]> self)
  end.

(** One round of that loop: the value [setattr] stores for [param]. *)
Definition resolve_param (a : Init.args) (param : string) : result pyval :=
  try! v <- eval a param;
  if is_None v then
    match from_environ param with
    | Some s => Ok (PyStr s)
    | None => Raise (ValueError ("Invalid " +:+ param +:+ "."))
    end
  else Ok v.

(** The argument [param] is [None] and its environment variable is
    unset. *)
Definition missing (a : Init.args) (param : string) : bool :=
  match eval a param with
  | Ok v => is_None v && negb (bool_decide (is_Some (from_environ param)))
  | Raise _ => false
  end.

(** The first field, in the order of the loop, that is missing. *)
Definition first_missing (a : Init.args) : option string :=
  List.find (missing a) (keys env_param_map).

(** Following the spec (4.1): the explicit value wins; otherwise the named
    environment variable is read; there is no value when it is absent. *)
Definition spec_resolve (explicit : pyval) (variable : string)
    : option pyval :=
  match explicit with
  | PyNone => PyStr <$> (host.environ proc !! variable)
  | v => Some v
  end.

(** [ap_region.regions[code]]: the table has string keys, so any other
    scalar is a missing key. *)
Definition regions_getitem (code : pyval) : option string :=
  match code with
  | PyStr s => regions !! s
  | _ => None
  end.

(** Lines 110 to 115. *)
Definition resolve_region (code : pyval) : result string :=
  match regions_getitem code with
  | Some h => Ok h
  | None => Raise (KeyError ("Invalid region code (" +:+ str code +:+ ")"))
  end.

Definition raise_if (r : option exn) : result unit :=
  match r with
  | Some e => Raise e
  | None => Ok tt
  end.

(** Lines 133 to 145. *)
Definition setup_logging (log_enabled log_file_name log_level : pyval)
    : result unit :=
  if is_not_False log_enabled then
    match log_level with
    | PyStr s =>
        let numeric_level := logging.getattr_upper log s in
        if negb (is_None numeric_level) then
          if negb (is_None log_file_name) then
            raise_if (logging.add_file_handler log numeric_level log_file_name)
          else
            raise_if (logging.add_stream_handler log numeric_level)
        else Ok tt
    | v =>
        Raise (AttributeError
                 ("'" +:+ type_name v +:+ "' object has no attribute 'upper'"))
    end
  else Ok tt.

(** [".".join(map(str, sys.version_info[:3]))] *)
Definition current_py_ver : string :=
  String.concat "." (map str (take 3 (host.version_info proc))).

(** Lines 147 to 168. *)
Definition user_agent (library_version : string)
    (application_name application_version : pyval) : string :=
  format_user_agent
    library_version
    (app_name_and_ver application_name application_version)
    current_py_ver
    (host.system proc)
    (host.release proc).

(** [ReportClient(...)]. The attributes assigned after the first call of
    [_set_endpoint] ([_user_agent], [_headers]) are blank until their
    assignment. *)
Definition __init__ (a : Init.args) : result ReportClient :=
  try! self <- resolve a (keys env_param_map) ∅;
  try! region_code <- getattr self "region";
  try! region_host <- resolve_region region_code;
  try! access_key <- getattr self "mws_access_key";
  try! secret_key <- getattr self "mws_secret_key";
  try! merchant <- getattr self "merchant_id";
  try! currency <- getattr self "currency_code";
  let self :=
    _set_endpoint
      {| mws_access_key := access_key;
         mws_secret_key := secret_key;
         merchant_id := merchant;
         region := region_code;
         currency_code := currency;
         _region := region_host;
         _region_code := region_code;
         handle_throttle := Init.handle_throttle a;
         application_name := Init.application_name a;
         application_version := Init.application_version a;
         _sandbox := Init.sandbox a;
         _api_version := ap_version.api_version versions;
         _api_name := ap_version.api_name versions;
         _application_library_version := ap_version.application_version versions;
         _mws_endpoint := PyNone;
         _user_agent := "";
         _headers := [] |} in
  try! _ <- setup_logging (Init.log_enabled a) (Init.log_file_name a)
              (Init.log_level a);
  let ua :=
    user_agent (_application_library_version self)
      (Init.application_name a) (Init.application_version a) in
  Ok (set__user_agent_headers ua
        [ ("Content-Type", PyStr "application/x-www-form-urlencoded");
          ("User-Agent", PyStr ua) ]
        self).

End Client.

(** ** Report operations and dispatch *)

(** A value of the config mapping: a scalar, or the headers dictionary. *)
Inductive pyobj : Type :=
  | Scalar (v : pyval)
  | Dict (d : pydict pyval).

(** The loop of lines 279 to 281, over the keys still to visit. A key of
    [options.keys()] is always bound in [options]. *)
Fixpoint merge_options (opts : list string) (options params : pydict pyval)
    : pydict pyval :=
  match opts with
  | [] => params
  | opt :: rest =>
      match dict_get opt options with
      | Some v =>
          if negb (is_None v)
          then merge_options rest options (dict_set opt v params)
          else merge_options rest options params
      | None => merge_options rest options params
      end
  end.

(** The [config] literal of lines 285 to 291. *)
Definition config (self : ReportClient) : pydict pyobj :=
  [ ("mws_access_key", Scalar (mws_access_key self));
    ("mws_secret_key", Scalar (mws_secret_key self));
    ("api_version", Scalar (PyStr (_api_version self)));
    ("merchant_id", Scalar (merchant_id self));
    ("mws_endpoint", Scalar (_mws_endpoint self));
    ("headers", Dict (_headers self));
    ("handle_throttle", Scalar (handle_throttle self)) ].

Section Dispatch.

(** The collaborator [amazon_pay.report_request.ReportRequest]: its
    instances, its constructor, [send_post], which signs and posts the
    request and fills in [response], and the [response] attribute. [World]
    is whatever [send_post] acts on. *)
Variable Request Response World : Type.
Variable ReportRequest : pydict pyval -> pydict pyobj -> Request.
Variable send_post : Request -> World -> Request * World.
Variable response : Request -> Response.

(** What the client does to the collaborator. *)
Inductive call : Type :=
  | NewRequest (params : pydict pyval) (config : pydict pyobj)
  | SendPost (request : Request).

(** The instance, the world and the calls made so far. *)
Record session : Type := {
  this : ReportClient;
  world : World;
  calls : list call
}.

Definition M (A : Type) : Type := session -> A * session.

Definition ret {A} (a : A) : M A := fun s => (a, s).

Definition bind {A B} (m : M A) (k : A -> M B) : M B :=
  fun s => let (a, s') := m s in k a s'.

Notation "'do' x <- m ; k" := (bind m (fun x => k))
  (at level 10, x name, m at level 100, k at level 200,
   format "'[v' 'do'  x  <-  m ; '/' k ']'").

Definition get_self : M ReportClient := fun s => (this s, s).

Definition log_call (c : call) (s : session) : session :=
  {| this := this s; world := world s; calls := calls s ++ [c] |}.

(** [ReportRequest(params=params, config=config)] *)
Definition new_ReportRequest (params : pydict pyval) (cfg : pydict pyobj)
    : M Request :=
  fun s => (ReportRequest params cfg, log_call (NewRequest params cfg) s).

(** [request.send_post()] *)
Definition call_send_post (request : Request) : M Request :=
  fun s =>
    let (request', w) := send_post request (world s) in
    (request',
     log_call (SendPost request)
       {| this := this s; world := w; calls := calls s |}).

Definition _operation (params : pydict pyval)
    (options : option (pydict pyval)) : M Response :=
  let params :=
    match options with
    | Some options => merge_options (keys options) options params
    | None => params
    end in
  do self <- get_self;
  do request <- new_ReportRequest params (config self);
  do request <- call_send_post request;
  ret (response request).

Definition get_report_list
    (available_from available_to acknowledged report_type_list
       merchant_id mws_auth_token : pyval) : M Response :=
  let parameters := [ ("Action", PyStr "GetReportList") ] in
  let optionals :=
    [ ("AvailableFromDate", available_from);
      ("AvailableToDate", available_to);
      ("Acknowledged", acknowledged);
      ("ReportTypeList.Type.1", report_type_list);
      ("SellerId", merchant_id);
      ("MWSAuthToken", mws_auth_token) ] in
  _operation parameters (Some optionals).

Definition get_report (report_id merchant_id mws_auth_token : pyval)
    : M Response :=
  let parameters :=
    [ ("Action", PyStr "GetReport");
      ("ReportId", report_id) ] in
  let optionals :=
    [ ("SellerId", merchant_id);
      ("MWSAuthToken", mws_auth_token) ] in
  _operation parameters (Some optionals).

Definition update_report_acknowledgements
    (report_id acknowledged merchant_id mws_auth_token : pyval)
    : M Response :=
  let parameters :=
    [ ("Action", PyStr "UpdateReportAcknowledgements");
      ("ReportIdList.Id.1", report_id);
      ("Acknowledged", acknowledged) ] in
  let optionals :=
    [ ("SellerId", merchant_id);
      ("MWSAuthToken", mws_auth_token) ] in
  _operation parameters (Some optionals).

(** A call of one of the three public operations. *)
Inductive invocation : Type :=
  | GetReportList
      (available_from available_to acknowledged report_type_list
         merchant_id mws_auth_token : pyval)
  | GetReport (report_id merchant_id mws_auth_token : pyval)
  | UpdateReportAcknowledgements
      (report_id acknowledged merchant_id mws_auth_token : pyval).

Definition invoke (i : invocation) : M Response :=
  match i with
  | GetReportList a b c d e f => get_report_list a b c d e f
  | GetReport a b c => get_report a b c
  | UpdateReportAcknowledgements a b c d =>
      update_report_acknowledgements a b c d
  end.

Definition is_NewRequest (c : call) : bool :=
  match c with NewRequest _ _ => true | SendPost _ => false end.

Definition is_SendPost (c : call) : bool :=
  match c with SendPost _ => true | NewRequest _ _ => false end.

(** How many request objects were constructed, and how often [send_post]
    was called. *)
Definition requests_constructed (cs : list call) : nat :=
  length (List.filter is_NewRequest cs).

Definition send_post_count (cs : list call) : nat :=
  length (List.filter is_SendPost cs).

End Dispatch.

Arguments NewRequest {Request} params config.
Arguments SendPost {Request} request.
Arguments this {Request World} s.
Arguments world {Request World} s.
Arguments calls {Request World} s.
Arguments is_NewRequest {Request} c.
Arguments is_SendPost {Request} c.
Arguments requests_constructed {Request} cs.
Arguments send_post_count {Request} cs.
Arguments _operation {Request Response World}.
Arguments get_report_list {Request Response World}.
Arguments get_report {Request Response World}.
Arguments update_report_acknowledgements {Request Response World}.
Arguments invoke {Request Response World}.

(** ** A sample installation

    Concrete tables and a concrete process, on which the definitions above
    can be evaluated. *)

Module Sample.

Definition regions : gmap string string :=
  list_to_map
    [ ("na", "mws.amazonservices.com");
      ("eu", "mws-eu.amazonservices.com");
      ("jp", "mws.amazonservices.jp") ].

Definition versions : ap_version.versions :=
  {| ap_version.api_version := "2009-01-01";
     ap_version.api_name := "Reports";
     ap_version.application_version := "2.7.1" |}.

Definition log : logging.module :=
  {| logging.getattr_upper :=
       fun s =>
         if String.eqb s "DEBUG" || String.eqb s "debug" then PyInt 10
         else if String.eqb s "INFO" || String.eqb s "info" then PyInt 20
         else PyNone;
     logging.add_file_handler := fun _ _ => None;
     logging.add_stream_handler := fun _ => None |}.

(** A process with no [AP_*] variable set. *)
Definition bare : host.process :=
  {| host.environ := ∅;
     host.version_info := [PyInt 3; PyInt 11; PyInt 4; PyStr "final"; PyInt 0];
     host.system := "Linux";
     host.release := "6.1.0" |}.

(** A process with the five variables set. *)
Definition configured : host.process :=
  {| host.environ :=
       list_to_map
         [ ("AP_MWS_ACCESS_KEY", "AKIAEXAMPLE");
           ("AP_MWS_SECRET_KEY", "secret");
           ("AP_MERCHANT_ID", "A1MERCHANT");
           ("AP_REGION", "na");
           ("AP_CURRENCY_CODE", "USD") ];
     host.version_info := host.version_info bare;
     host.system := host.system bare;
     host.release := host.release bare |}.

(** All five fields given explicitly. *)
Definition explicit : Init.args :=
  {| Init.mws_access_key := PyStr "AKIAEXAMPLE";
     Init.mws_secret_key := PyStr "secret";
     Init.merchant_id := PyStr "A1MERCHANT";
     Init.region := PyStr "na";
     Init.currency_code := PyStr "USD";
     Init.sandbox := PyBool false;
     Init.handle_throttle := PyBool true;
     Init.application_name := PyNone;
     Init.application_version := PyNone;
     Init.log_enabled := PyBool false;
     Init.log_file_name := PyNone;
     Init.log_level := PyNone |}.

(** The same with an empty access key. *)
Definition blank_key : Init.args :=
  Init.with_key_region (PyStr "") (PyStr "na") explicit.

(** The same with a region code the table does not have. *)
Definition unknown_region : Init.args :=
  Init.with_key_region (PyStr "AKIAEXAMPLE") (PyStr "xx") explicit.

(** The same with logging enabled and no level. *)
Definition logging_on : Init.args :=
  Init.with_logging (PyBool true) PyNone PyNone explicit.

Definition new (p : host.process) (a : Init.args) : result ReportClient :=
  __init__ regions versions log p a.

(** A collaborator that keeps what it is given; its world counts the posts,
    and its response tells whether the request was posted. *)
Record request : Type := {
  params : pydict pyval;
  cfg : pydict pyobj;
  posted : bool
}.

Definition ReportRequest (p : pydict pyval) (c : pydict pyobj) : request :=
  {| params := p; cfg := c; posted := false |}.

Definition send_post (r : request) (w : nat) : request * nat :=
  ({| params := params r; cfg := cfg r; posted := true |}, S w).

Definition response (r : request) : bool := posted r.

(** A client that has made no call yet. *)
Definition fresh (c : ReportClient) : session request nat :=
  {| this := c; world := 0; calls := [] |}.

End Sample.

(** ** Sequences of calls *)

(** The entries of a dictionary whose value is not [None], in order. *)
Definition without_None (d : pydict pyval) : pydict pyval :=
  List.filter (fun kv => negb (is_None (snd kv))) d.

Section Sequences.

Variable Request Response World : Type.
Variable ReportRequest : pydict pyval -> pydict pyobj -> Request.
Variable send_post : Request -> World -> Request * World.
Variable response : Request -> Response.

(** The public operations called one after the other on the same client;
    the responses come back in the order of the calls. *)
Fixpoint invoke_all (invocations : list invocation)
    (s : session Request World) : list Response * session Request World :=
  match invocations with
  | [] => ([], s)
  | i :: rest =>
      let (r, s1) := invoke ReportRequest send_post response i s in
      let (rs, s2) := invoke_all rest s1 in
      (r :: rs, s2)
  end.

End Sequences.

Arguments invoke_all {Request Response World}.

(** * Properties *)

(** ** Strings *)

Lemma starts_with_app (s b : string) : starts_with (s +:+ b) s = true.
Proof.
  induction s as [|c s IH]; simpl; [done|].
  by rewrite Ascii.eqb_refl, IH.
Qed.

Lemma starts_with_inv (t s : string) :
  starts_with t s = true -> exists b, t = s +:+ b.
Proof.
  revert t. induction s as [|c s IH]; intros t H.
  - by exists t.
  - destruct t as [|d t]; simpl in H; [done|].
    apply andb_true_iff in H as [Hc Ht].
    apply Ascii.eqb_eq in Hc as ->.
    destruct (IH _ Ht) as [b ->]. by exists b.
Qed.

Lemma contains_unfold (t s : string) :
  contains t s =
  starts_with t s ||
  match t with EmptyString => false | String _ t' => contains t' s end.
Proof. by destruct t. Qed.

Lemma contains_app (a s b : string) : contains (a +:+ s +:+ b) s = true.
Proof.
  induction a as [|c a IH].
  - change ("" +:+ s +:+ b) with (s +:+ b).
    by rewrite contains_unfold, starts_with_app.
  - change (String c a +:+ s +:+ b) with (String c (a +:+ s +:+ b)).
    rewrite contains_unfold, IH. apply orb_true_r.
Qed.

Lemma contains_inv (t s : string) :
  contains t s = true -> exists a b, t = a +:+ s +:+ b.
Proof.
  induction t as [|c t IH]; rewrite contains_unfold; intros H.
  - rewrite orb_false_r in H. apply starts_with_inv in H as [b ->].
    by exists "", b.
  - apply orb_true_iff in H as [H|H].
    + apply starts_with_inv in H as [b ->]. by exists "", b.
    + destruct (IH H) as (a & b & ->). by exists (String c a), b.
Qed.

(** [contains t s] decides that [s] occurs in [t]. *)
Lemma contains_spec (t s : string) :
  contains t s = true <-> exists a b, t = a +:+ s +:+ b.
Proof.
  split; [apply contains_inv|].
  intros (a & b & ->). apply contains_app.
Qed.

(** ** Dictionaries *)

Lemma dict_get_set_eq {V} (k : string) (v : V) (d : pydict V) :
  dict_get k (dict_set k v d) = Some v.
Proof.
  induction d as [|[k' v'] d IH]; simpl.
  - by rewrite String.eqb_refl.
  - destruct (String.eqb k k') eqn:E; simpl; rewrite E; [done|apply IH].
Qed.

Lemma dict_get_set_ne {V} (k j : string) (v : V) (d : pydict V) :
  k <> j -> dict_get j (dict_set k v d) = dict_get j d.
Proof.
  intros Hne. induction d as [|[k' v'] d IH]; simpl.
  - destruct (String.eqb j k) eqn:E; [|done].
    apply String.eqb_eq in E. congruence.
  - destruct (String.eqb k k') eqn:E; simpl.
    + apply String.eqb_eq in E as <-.
      destruct (String.eqb j k) eqn:E'; [|done].
      apply String.eqb_eq in E'. congruence.
    + by rewrite IH.
Qed.

(** ** The configuration resolver *)

(** Membership of a literal name in [keys env_param_map]. *)
Ltac env_key :=
  cbv [keys env_param_map map fst];
  repeat first [apply list_elem_of_here | apply list_elem_of_further].

Section ResolverFacts.

Variable regions : gmap string string.
Variable versions : ap_version.versions.
Variable log : logging.module.
Variable proc : host.process.

Abbreviation resolve := (resolve proc).
Abbreviation resolve_param := (resolve_param proc).
Abbreviation missing := (missing proc).
Abbreviation __init__ := (__init__ regions versions log proc).

Lemma resolve_cons a param rest self :
  resolve a (param :: rest) self =
  try! v <- resolve_param a param; resolve a rest (<[param := v]> self).
Proof.
  unfold resolve_param. simpl.
  destruct (eval a param) as [v|e]; simpl; [|done].
  destruct (is_None v); [|done].
  by destruct (from_environ proc param).
Qed.

Lemma resolve_lookup_notin a params : forall self self' k,
  resolve a params self = Ok self' -> k ∉ params -> self' !! k = self !! k.
Proof.
  induction params as [|p rest IH]; intros self self' k H Hk.
  - simpl in H. by inversion H.
  - rewrite resolve_cons in H.
    destruct (resolve_param a p) as [v|e]; simpl in H; [|done].
    apply not_elem_of_cons in Hk as [Hne Hk].
    rewrite (IH _ _ _ H Hk). by rewrite lookup_insert_ne.
Qed.

Lemma resolve_lookup_in a params : forall self self' k,
  resolve a params self = Ok self' -> k ∈ params ->
  exists v, resolve_param a k = Ok v /\ self' !! k = Some v.
Proof.
  induction params as [|p rest IH]; intros self self' k H Hk.
  - by apply elem_of_nil in Hk.
  - rewrite resolve_cons in H.
    destruct (resolve_param a p) as [v|e] eqn:Ep; simpl in H; [|done].
    destruct (decide (k ∈ rest)) as [Hin|Hnotin].
    + by apply (IH _ _ _ H).
    + apply elem_of_cons in Hk as [->|Hk]; [|done].
      exists v. split; [done|].
      rewrite (resolve_lookup_notin _ _ _ _ _ H Hnotin).
      by rewrite lookup_insert_eq.
Qed.

Lemma resolve_raise_first a before k after e : forall self,
  (forall j, j ∈ before -> succeeds (resolve_param a j) = true) ->
  resolve_param a k = Raise e ->
  resolve a (before ++ k :: after)%list self = Raise e.
Proof.
  induction before as [|p rest IH]; intros self Hok Hk.
  - simpl app. rewrite resolve_cons. by rewrite Hk.
  - simpl app. rewrite resolve_cons.
    assert (Hp := Hok p (proj2 (elem_of_cons _ _ _) (or_introl eq_refl))).
    destruct (resolve_param a p) as [v|e']; [|done]. simpl.
    apply IH; [|done]. intros j Hj. apply Hok. apply elem_of_cons. by right.
Qed.

Lemma resolve_all_ok a params : forall self,
  (forall j, j ∈ params -> succeeds (resolve_param a j) = true) ->
  succeeds (resolve a params self) = true.
Proof.
  induction params as [|p rest IH]; intros self Hok; [done|].
  rewrite resolve_cons.
  assert (Hp := Hok p (proj2 (elem_of_cons _ _ _) (or_introl eq_refl))).
  destruct (resolve_param a p) as [v|e']; [|done]. simpl.
  apply IH. intros j Hj. apply Hok. apply elem_of_cons. by right.
Qed.

(** What is stored is never [None]. *)
Lemma resolve_param_not_None a k v :
  resolve_param a k = Ok v -> is_None v = false.
Proof.
  unfold resolve_param.
  destruct (eval a k) as [w|e]; simpl; [|done].
  destruct (is_None w) eqn:E.
  - destruct (from_environ proc k); [|done]. by intros [= <-].
  - by intros [= <-].
Qed.

Lemma eval_env_param a k :
  k ∈ keys env_param_map -> succeeds (eval a k) = true.
Proof.
  intros Hk. unfold keys in Hk. simpl in Hk.
  repeat (apply elem_of_cons in Hk as [->|Hk]; [done|]).
  by apply elem_of_nil in Hk.
Qed.

Lemma missing_raises a k :
  missing a k = true ->
  resolve_param a k = Raise (ValueError ("Invalid " +:+ k +:+ ".")).
Proof.
  unfold missing, resolve_param.
  destruct (eval a k) as [v|e]; simpl; [|done].
  intros H. apply andb_true_iff in H as [-> H].
  destruct (from_environ proc k); [|done].
  exfalso. apply negb_true_iff, bool_decide_eq_false in H. apply H. by eexists.
Qed.

Lemma not_missing_resolves a k :
  k ∈ keys env_param_map -> missing a k = false ->
  succeeds (resolve_param a k) = true.
Proof.
  intros Hk. pose proof (eval_env_param a k Hk) as He.
  unfold missing, resolve_param.
  destruct (eval a k) as [v|e]; simpl; [|done].
  destruct (is_None v); [|done]. simpl.
  destruct (from_environ proc k); [done|].
  intros H. apply negb_false_iff, bool_decide_eq_true in H. by destruct H.
Qed.

Lemma find_split {A} (p : A -> bool) (l : list A) (x : A) :
List.find p l = Some x ->
exists before after,
  l = (before ++ x :: after)%list /\ p x = true /\
  forall y, y ∈ before -> p y = false.
Proof.
induction l as [|z l IH]; simpl; [done|].
destruct (p z) eqn:E.
- intros [= <-]. exists [], l. repeat split; [done|].
  intros y Hy. by apply elem_of_nil in Hy.
- intros H. destruct (IH H) as (before & after & -> & Hx & Hb).
  exists (z :: before), after. repeat split; [done|].
  intros y Hy. apply elem_of_cons in Hy as [->|Hy]; [done|by apply Hb].
Qed.

Lemma find_first {A} (p : A -> bool) (before after : list A) (x : A) :
(forall y, y ∈ before -> p y = false) -> p x = true ->
List.find p (before ++ x :: after)%list = Some x.
Proof.
induction before as [|z l IH]; simpl; intros Hb Hx.
- by rewrite Hx.
- rewrite (Hb z) by (apply elem_of_cons; by left).
  apply IH; [|done]. intros y Hy. apply Hb, elem_of_cons. by right.
Qed.

Lemma find_is_Some {A} (p : A -> bool) (l : list A) (x : A) :
x ∈ l -> p x = true -> is_Some (List.find p l).
Proof.
induction l as [|z l IH]; intros Hx Hp.
- by apply elem_of_nil in Hx.
- simpl. destruct (p z) eqn:E; [by eexists|].
  apply elem_of_cons in Hx as [->|Hx]; [congruence|by apply IH].
Qed.

Lemma first_missing_raises a g :
first_missing proc a = Some g ->
resolve a (keys env_param_map) ∅ =
Raise (ValueError ("Invalid " +:+ g +:+ ".")).
Proof.
intros H. apply find_split in H as (before & after & Hl & Hg & Hb).
rewrite Hl. apply resolve_raise_first; [|by apply missing_raises].
intros j Hj. apply not_missing_resolves; [|by apply Hb].
rewrite Hl. apply elem_of_app. by left.
Qed.

Lemma none_missing_resolves a :
first_missing proc a = None ->
succeeds (resolve a (keys env_param_map) ∅) = true.
Proof.
intros H. apply resolve_all_ok. intros j Hj.
apply not_missing_resolves; [done|].
destruct (missing a j) eqn:E; [|done].
destruct (find_is_Some _ _ _ Hj E) as [g Hg].
unfold first_missing in H. congruence.
Qed.

(** One round of the loop computes what the spec's resolver describes. *)
Lemma resolve_param_spec a param var arg v :
dict_get param env_param_map = Some var ->
eval a param = Ok arg ->
resolve_param a param = Ok v <-> spec_resolve proc arg var = Some v.
Proof.
intros Hvar Harg. unfold resolve_param, from_environ, spec_resolve.
rewrite Harg, Hvar. simpl.
destruct arg; simpl; try (split; intros [= <-]; done).
destruct (host.environ proc !! var); simpl; split; intros [= <-]; done.
Qed.

(** What a successful construction has done. *)
Lemma init_inv a c :
__init__ a = Ok c ->
exists self,
  resolve a (keys env_param_map) ∅ = Ok self /\
  self !! "mws_access_key" = Some (mws_access_key c) /\
  self !! "mws_secret_key" = Some (mws_secret_key c) /\
  self !! "merchant_id" = Some (merchant_id c) /\
  self !! "region" = Some (region c) /\
  self !! "currency_code" = Some (currency_code c) /\
  regions_getitem regions (region c) = Some (_region c) /\
  _region_code c = region c /\
  setup_logging log (Init.log_enabled a) (Init.log_file_name a)
    (Init.log_level a) = Ok tt /\
  c = set__user_agent_headers
        (user_agent proc (ap_version.application_version versions)
           (Init.application_name a) (Init.application_version a))
        [ ("Content-Type", PyStr "application/x-www-form-urlencoded");
          ("User-Agent",
           PyStr (user_agent proc (ap_version.application_version versions)
                    (Init.application_name a) (Init.application_version a))) ]
        (_set_endpoint
           {| mws_access_key := mws_access_key c;
              mws_secret_key := mws_secret_key c;
              merchant_id := merchant_id c;
              region := region c;
              currency_code := currency_code c;
              _region := _region c;
              _region_code := region c;
              handle_throttle := Init.handle_throttle a;
              application_name := Init.application_name a;
              application_version := Init.application_version a;
              _sandbox := Init.sandbox a;
              _api_version := ap_version.api_version versions;
              _api_name := ap_version.api_name versions;
              _application_library_version :=
                ap_version.application_version versions;
              _mws_endpoint := PyNone;
              _user_agent := "";
              _headers := [] |}).
Proof.
unfold __init__, getattr, resolve_region.
destruct (resolve a (keys env_param_map) ∅) as [self|e]; simpl; [|done].
destruct (self !! "region") as [code|] eqn:E4; simpl; [|done].
destruct (regions_getitem regions code) as [h|] eqn:Eh; simpl; [|done].
destruct (self !! "mws_access_key") as [v1|] eqn:E1; simpl; [|done].
destruct (self !! "mws_secret_key") as [v2|] eqn:E2; simpl; [|done].
destruct (self !! "merchant_id") as [v3|] eqn:E3; simpl; [|done].
destruct (self !! "currency_code") as [v5|] eqn:E5; simpl; [|done].
destruct (setup_logging _ _ _ _) as [[]|e] eqn:El; simpl; [|done].
intros [= <-]. exists self. simpl. by repeat split.
Qed.

(** The region stage fails when the resolved code is not in the table. *)
Lemma init_invalid_region a self code :
resolve a (keys env_param_map) ∅ = Ok self ->
self !! "region" = Some code ->
regions_getitem regions code = None ->
__init__ a = Raise (KeyError ("Invalid region code (" +:+ str code +:+ ")")).
Proof.
intros Hres Hcode Hnone. unfold __init__, getattr, resolve_region.
rewrite Hres. simpl. rewrite Hcode. simpl. by rewrite Hnone.
Qed.

(** The five attributes are set once the loop has run. *)
Lemma resolve_sets a self k :
resolve a (keys env_param_map) ∅ = Ok self ->
k ∈ keys env_param_map ->
exists v, self !! k = Some v /\ is_None v = false /\
          resolve_param a k = Ok v.
Proof.
intros Hres Hk.
destruct (resolve_lookup_in _ _ _ _ _ Hres Hk) as (v & Hv & Hs).
exists v. repeat split; [done| |done]. by apply resolve_param_not_None in Hv.
Qed.

(** Construction with every field resolved and the region in the table fails
  exactly when the logging set-up does. *)
Lemma init_logging a self code h e :
resolve a (keys env_param_map) ∅ = Ok self ->
self !! "region" = Some code ->
regions_getitem regions code = Some h ->
setup_logging log (Init.log_enabled a) (Init.log_file_name a)
  (Init.log_level a) = Raise e ->
__init__ a = Raise e.
Proof.
intros Hres Hcode Hh Hlog.
assert (Hin : forall k, k ∈ keys env_param_map -> is_Some (self !! k)).
{ intros k Hk. destruct (resolve_sets _ _ _ Hres Hk) as (v & -> & _). by eexists. }
unfold __init__, getattr, resolve_region.
rewrite Hres. simpl. rewrite Hcode. simpl. rewrite Hh. simpl.
destruct (Hin "mws_access_key") as [v1 ->]; [env_key|]. simpl.
destruct (Hin "mws_secret_key") as [v2 ->]; [env_key|]. simpl.
destruct (Hin "merchant_id") as [v3 ->]; [env_key|]. simpl.
destruct (Hin "currency_code") as [v5 ->]; [env_key|]. simpl.
by rewrite Hlog.
Qed.

Lemma init_missing a g :
first_missing proc a = Some g ->
__init__ a = Raise (ValueError ("Invalid " +:+ g +:+ ".")).
Proof.
intros H. unfold __init__. by rewrite (first_missing_raises _ _ H).
Qed.

Lemma resolved_field a self k var arg v :
resolve a (keys env_param_map) ∅ = Ok self ->
k ∈ keys env_param_map ->
dict_get k env_param_map = Some var ->
eval a k = Ok arg ->
self !! k = Some v ->
spec_resolve proc arg var = Some v /\ is_None v = false.
Proof.
intros Hres Hk Hvar Harg Hv.
destruct (resolve_sets _ _ _ Hres Hk) as (v' & Hv' & Hnn & Hp).
assert (v' = v) as -> by congruence.
split; [|done]. by apply (resolve_param_spec a k var arg v).
Qed.

(** C3 (amended). After a successful construction each of the five required
  fields holds the value the resolver describes (the explicit argument
  when it is not [None], else the string of its environment variable), and
  that value is not [None]; an empty string is such a value. Whenever one
  of the five fields has a [None] argument and an unset environment
  variable, construction fails. *)
Theorem required_fields_resolved a :
(forall c, __init__ a = Ok c ->
   (spec_resolve proc (Init.mws_access_key a) "AP_MWS_ACCESS_KEY"
      = Some (mws_access_key c) /\ is_None (mws_access_key c) = false) /\
   (spec_resolve proc (Init.mws_secret_key a) "AP_MWS_SECRET_KEY"
      = Some (mws_secret_key c) /\ is_None (mws_secret_key c) = false) /\
   (spec_resolve proc (Init.merchant_id a) "AP_MERCHANT_ID"
      = Some (merchant_id c) /\ is_None (merchant_id c) = false) /\
   (spec_resolve proc (Init.region a) "AP_REGION"
      = Some (region c) /\ is_None (region c) = false) /\
   (spec_resolve proc (Init.currency_code a) "AP_CURRENCY_CODE"
      = Some (currency_code c) /\ is_None (currency_code c) = false)) /\
(forall f, f ∈ keys env_param_map -> missing a f = true ->
   succeeds (__init__ a) = false).
Proof.
split.
- intros c Hc.
  destruct (init_inv a c Hc) as (self & Hres & H1 & H2 & H3 & H4 & H5 & _).
  pose proof (resolved_field a self "mws_access_key" _ _ _ Hres
                ltac:(env_key) eq_refl eq_refl H1).
  pose proof (resolved_field a self "mws_secret_key" _ _ _ Hres
                ltac:(env_key) eq_refl eq_refl H2).
  pose proof (resolved_field a self "merchant_id" _ _ _ Hres
                ltac:(env_key) eq_refl eq_refl H3).
  pose proof (resolved_field a self "region" _ _ _ Hres
                ltac:(env_key) eq_refl eq_refl H4).
  pose proof (resolved_field a self "currency_code" _ _ _ Hres
                ltac:(env_key) eq_refl eq_refl H5).
  done.
- intros f Hf Hm.
  destruct (find_is_Some _ _ _ Hf Hm) as [g Hg].
  by rewrite (init_missing a g Hg).
Qed.

(** C4 (amended). When one of the five required fields has a [None] argument
  and an unset environment variable, construction raises a value error
  whose message names the first such field in the order mws_access_key,
  mws_secret_key, merchant_id, region, currency_code; that is the field
  itself when no field before it is missing. *)
Theorem missing_field_value_error a f :
f ∈ keys env_param_map -> missing a f = true ->
exists g,
  first_missing proc a = Some g /\
  __init__ a = Raise (ValueError ("Invalid " +:+ g +:+ ".")) /\
  (forall before after,
     keys env_param_map = (before ++ f :: after)%list ->
     (forall h, h ∈ before -> missing a h = false) ->
     g = f).
Proof.
intros Hf Hm.
destruct (find_is_Some _ _ _ Hf Hm) as [g Hg].
exists g. split; [done|]. split; [by apply init_missing|].
intros before after Hl Hb.
unfold first_missing in Hg. rewrite Hl in Hg.
rewrite (find_first _ _ _ _ Hb Hm) in Hg. congruence.
Qed.

(** C5. When the five fields are resolved and the region code is not a key
  of the region table, construction fails with a key error whose message
  carries the code; when the code is a key of the table, region resolution
  succeeds with the host the table gives, and a constructed client holds
  that host and the code. *)
Theorem region_lookup a self code :
resolve a (keys env_param_map) ∅ = Ok self ->
self !! "region" = Some code ->
((forall s, code = PyStr s -> regions !! s = None) ->
 __init__ a =
 Raise (KeyError ("Invalid region code (" +:+ str code +:+ ")"))) /\
(forall s h, code = PyStr s -> regions !! s = Some h ->
   resolve_region regions code = Ok h /\
   forall c, __init__ a = Ok c -> _region c = h /\ _region_code c = code).
Proof.
intros Hres Hcode. split.
- intros Hnone. apply (init_invalid_region a self code); [done..|].
  destruct code; try done. simpl. by apply Hnone.
- intros s h -> Hh. split.
  + unfold resolve_region. simpl. by rewrite Hh.
  + intros c Hc.
    destruct (init_inv a c Hc)
      as (self' & Hres' & _ & _ & _ & H4 & _ & Hr & Hrc & _).
    assert (self' = self) as -> by congruence.
    assert (region c = PyStr s) as Hreg by congruence.
    rewrite Hreg in Hr, Hrc. simpl in Hr. split; congruence.
Qed.

(** C10. With the five fields resolved and the region in the table, a truthy
  [log_enabled] together with the default [log_level] of [None] makes the
  constructor raise the attribute error of [None.upper]. *)
Theorem logging_needs_level a self code h :
resolve a (keys env_param_map) ∅ = Ok self ->
self !! "region" = Some code ->
regions_getitem regions code = Some h ->
truthy (Init.log_enabled a) = true ->
Init.log_level a = PyNone ->
__init__ a =
Raise (AttributeError "'NoneType' object has no attribute 'upper'").
Proof.
intros Hres Hcode Hh Ht Hl.
apply (init_logging a self code h); [done..|].
unfold setup_logging. rewrite Hl.
by destruct (Init.log_enabled a) as [|[]| |].
Qed.

End ResolverFacts.

(** *** The resolver on the sample installation *)

Lemma required_fields_resolved_witness :
  (exists c,
     Sample.new Sample.configured Init.defaults = Ok c /\
     spec_resolve Sample.configured (Init.mws_access_key Init.defaults)
       "AP_MWS_ACCESS_KEY" = Some (mws_access_key c) /\
     is_None (region c) = false) /\
  missing Sample.bare Init.defaults "region" = true /\
  succeeds (Sample.new Sample.bare Init.defaults) = false.
Proof.
  pose proof (required_fields_resolved Sample.regions Sample.versions
                Sample.log Sample.configured Init.defaults) as [Hok _].
  pose proof (required_fields_resolved Sample.regions Sample.versions
                Sample.log Sample.bare Init.defaults) as [_ Hfail].
  split; [|split].
  - eexists. split; [vm_compute; reflexivity|].
    destruct (Hok _ eq_refl) as ((Hv & _) & _ & _ & (_ & Hr) & _).
    exact (conj Hv Hr).
  - vm_compute. reflexivity.
  - apply (Hfail "region"); [env_key|vm_compute; reflexivity].
Defined.

(** C3, as stated, fails: an empty access key is accepted and kept. *)
Lemma empty_access_key_accepted :
  exists c,
    Sample.new Sample.bare Sample.blank_key = Ok c /\
    mws_access_key c = PyStr "" /\
    in_empty_or_None (mws_access_key c) = true.
Proof. eexists. split; [vm_compute; reflexivity|]. by split. Qed.

Lemma missing_field_value_error_witness :
  missing Sample.bare Init.defaults "mws_access_key" = true /\
  exists g,
    first_missing Sample.bare Init.defaults = Some g /\
    Sample.new Sample.bare Init.defaults
      = Raise (ValueError ("Invalid " +:+ g +:+ ".")) /\
    (forall before after,
       keys env_param_map = (before ++ "mws_access_key" :: after)%list ->
       (forall h, h ∈ before -> missing Sample.bare Init.defaults h = false) ->
       g = "mws_access_key").
Proof.
  split; [vm_compute; reflexivity|].
  apply (missing_field_value_error Sample.regions Sample.versions Sample.log
           Sample.bare Init.defaults "mws_access_key");
    [env_key|vm_compute; reflexivity].
Defined.

(** C4, as stated, fails: with every field missing, the currency code is
    missing too, yet the message names the access key only. *)
Lemma value_error_names_first_field_only :
  missing Sample.bare Init.defaults "currency_code" = true /\
  Sample.new Sample.bare Init.defaults
    = Raise (ValueError "Invalid mws_access_key.") /\
  contains "Invalid mws_access_key." "currency_code" = false.
Proof. repeat split; vm_compute; reflexivity. Qed.

Lemma region_lookup_witness :
  Sample.new Sample.bare Sample.unknown_region
    = Raise (KeyError "Invalid region code (xx)") /\
  (resolve_region Sample.regions (PyStr "na") = Ok "mws.amazonservices.com" /\
   forall c, Sample.new Sample.bare Sample.explicit = Ok c ->
             _region c = "mws.amazonservices.com" /\
             _region_code c = PyStr "na").
Proof.
  split.
  - refine (proj1 (region_lookup Sample.regions Sample.versions Sample.log
                     Sample.bare Sample.unknown_region _ (PyStr "xx") _ _) _).
    + vm_compute. reflexivity.
    + vm_compute. reflexivity.
    + intros s [= <-]. vm_compute. reflexivity.
  - refine (proj2 (region_lookup Sample.regions Sample.versions Sample.log
                     Sample.bare Sample.explicit _ (PyStr "na") _ _)
              "na" "mws.amazonservices.com" eq_refl _).
    + vm_compute. reflexivity.
    + vm_compute. reflexivity.
    + vm_compute. reflexivity.
Defined.

Lemma logging_needs_level_witness :
  truthy (Init.log_enabled Sample.logging_on) = true /\
  Init.log_level Sample.logging_on = PyNone /\
  Sample.new Sample.bare Sample.logging_on
    = Raise (AttributeError "'NoneType' object has no attribute 'upper'").
Proof.
  split; [reflexivity|]. split; [reflexivity|].
  refine (logging_needs_level Sample.regions Sample.versions Sample.log
            Sample.bare Sample.logging_on _ (PyStr "na")
            "mws.amazonservices.com" _ _ _ eq_refl eq_refl).
  - vm_compute. reflexivity.
  - vm_compute. reflexivity.
  - vm_compute. reflexivity.
Defined.

(** ** Endpoint and sandbox *)

Lemma sandbox_setter_endpoint value self :
  _mws_endpoint (sandbox_setter value self) =
  PyStr (endpoint_url (_region self) (_api_name self) (_api_version self)).
Proof. reflexivity. Qed.

Lemma after_setting_snoc values value self :
  after_setting (values ++ [value])%list self =
  sandbox_setter value (after_setting values self).
Proof. unfold after_setting. by rewrite foldl_app. Qed.

(** Setting [sandbox] any number of times keeps the region host and the API
    name and version. *)
Lemma after_setting_fixed values self :
  _region (after_setting values self) = _region self /\
  _api_name (after_setting values self) = _api_name self /\
  _api_version (after_setting values self) = _api_version self.
Proof.
  induction values as [|value values IH] using rev_ind; [done|].
  rewrite after_setting_snoc. exact IH.
Qed.

Lemma after_setting_endpoint values self :
  _mws_endpoint self =
    PyStr (endpoint_url (_region self) (_api_name self) (_api_version self)) ->
  _mws_endpoint (after_setting values self) = _mws_endpoint self.
Proof.
  intros Hself.
  induction values as [|value values IH] using rev_ind; [done|].
  rewrite after_setting_snoc, sandbox_setter_endpoint.
  destruct (after_setting_fixed values self) as (-> & -> & ->). by rewrite Hself.
Qed.

Section EndpointFacts.

Variable regions : gmap string string.
Variable versions : ap_version.versions.
Variable log : logging.module.
Variable proc : host.process.

Lemma init_endpoint a c :
  __init__ regions versions log proc a = Ok c ->
  _api_name c = ap_version.api_name versions /\
  _api_version c = ap_version.api_version versions /\
  _sandbox c = Init.sandbox a /\
  _mws_endpoint c =
    PyStr (endpoint_url (_region c) (_api_name c) (_api_version c)).
Proof.
  intros Hc. destruct (init_inv _ _ _ _ a c Hc) as (self & _ & _ & _ & _ & _ & _ & _ & _ & _ & ->).
  done.
Qed.

(** C1 (amended). Setting the sandbox property of a constructed client, to
    any value, stores the value and recomputes the endpoint, whatever the
    endpoint attribute held before, from the region host and the fixed API
    name and version; the new endpoint does not depend on the sandbox value,
    so it is the string the client had before. *)
Theorem sandbox_setter_recomputes_endpoint a c value :
  __init__ regions versions log proc a = Ok c ->
  sandbox (sandbox_setter value c) = value /\
  (forall stale,
     _mws_endpoint (sandbox_setter value (set__mws_endpoint stale c)) =
     PyStr (endpoint_url (_region c) (ap_version.api_name versions)
              (ap_version.api_version versions))) /\
  (forall other,
     _mws_endpoint (sandbox_setter value c) =
     _mws_endpoint (sandbox_setter other c)) /\
  _mws_endpoint (sandbox_setter value c) = _mws_endpoint c.
Proof.
  intros Hc. destruct (init_endpoint a c Hc) as (Hn & Hv & _ & He).
  split; [done|]. split; [|split; [done|]].
  - intros stale. rewrite sandbox_setter_endpoint. simpl. by rewrite Hn, Hv.
  - by rewrite sandbox_setter_endpoint, He.
Qed.

(** C6. The endpoint of a client, as constructed and after any number of
    assignments to [sandbox], is [https://], the region host, a slash, the
    API name, a slash and the API version; two such clients with the same
    region host have the same endpoint. *)
Theorem endpoint_of_region_host a c values :
  __init__ regions versions log proc a = Ok c ->
  _mws_endpoint (after_setting values c) =
    PyStr ("https://" +:+ _region (after_setting values c) +:+ "/"
             +:+ ap_version.api_name versions +:+ "/"
             +:+ ap_version.api_version versions) /\
  (forall regions' log' proc' a' c' values',
     __init__ regions' versions log' proc' a' = Ok c' ->
     _region (after_setting values' c') = _region (after_setting values c) ->
     _mws_endpoint (after_setting values' c') =
     _mws_endpoint (after_setting values c)).
Proof.
  assert (Hform : forall regions' log' proc' a' c' values',
            __init__ regions' versions log' proc' a' = Ok c' ->
            _mws_endpoint (after_setting values' c') =
            PyStr (endpoint_url (_region (after_setting values' c'))
                     (ap_version.api_name versions)
                     (ap_version.api_version versions))).
  { intros regions' log' proc' a' c' values' Hc'.
    destruct (init_inv _ _ _ _ a' c' Hc')
      as (self & _ & _ & _ & _ & _ & _ & _ & _ & _ & Hrec).
    assert (He : _mws_endpoint c' =
              PyStr (endpoint_url (_region c') (_api_name c') (_api_version c')))
      by (by rewrite Hrec).
    rewrite (after_setting_endpoint values' c' He), He.
    destruct (after_setting_fixed values' c') as (-> & _ & _).
    by rewrite Hrec. }
  intros Hc. split.
  - apply (Hform _ _ _ _ _ _ Hc).
  - intros regions' log' proc' a' c' values' Hc' Hsame.
    rewrite (Hform _ _ _ _ _ _ Hc), (Hform _ _ _ _ _ _ Hc'). by rewrite Hsame.
Qed.

End EndpointFacts.

(** *** The endpoint on the sample installation *)

Lemma sandbox_setter_recomputes_endpoint_witness :
  exists c,
    Sample.new Sample.bare Sample.explicit = Ok c /\
    sandbox (sandbox_setter (PyBool true) c) = PyBool true /\
    _mws_endpoint (sandbox_setter (PyBool true) c) = _mws_endpoint c.
Proof.
  eexists. split; [vm_compute; reflexivity|].
  destruct (sandbox_setter_recomputes_endpoint Sample.regions Sample.versions
              Sample.log Sample.bare Sample.explicit _ (PyBool true) eq_refl)
    as (Hs & _ & _ & He).
  exact (conj Hs He).
Defined.

(** C1, as stated, fails: switching the sandbox flag of the sample client
    from [False] to [True] leaves its endpoint string as it was. *)
Lemma toggling_sandbox_keeps_endpoint :
  exists c,
    Sample.new Sample.bare Sample.explicit = Ok c /\
    sandbox c = PyBool false /\
    sandbox (sandbox_setter (PyBool true) c) = PyBool true /\
    _mws_endpoint c
      = PyStr "https://mws.amazonservices.com/Reports/2009-01-01" /\
    _mws_endpoint (sandbox_setter (PyBool true) c)
      = PyStr "https://mws.amazonservices.com/Reports/2009-01-01".
Proof. eexists. split; [vm_compute; reflexivity|]. by repeat split. Qed.

Lemma endpoint_of_region_host_witness :
  exists c,
    Sample.new Sample.bare Sample.explicit = Ok c /\
    _mws_endpoint (after_setting [PyBool true; PyBool false] c) =
    PyStr ("https://" +:+ _region (after_setting [PyBool true; PyBool false] c)
             +:+ "/" +:+ "Reports" +:+ "/" +:+ "2009-01-01").
Proof.
  eexists. split; [vm_compute; reflexivity|].
  exact (proj1 (endpoint_of_region_host Sample.regions Sample.versions
                  Sample.log Sample.bare Sample.explicit _
                  [PyBool true; PyBool false] eq_refl)).
Defined.

(** ** User-Agent *)

Lemma append_assoc (a b c : string) : (a +:+ b) +:+ c = a +:+ b +:+ c.
Proof.
  induction a as [|x a IH]; [done|].
  change (String x ((a +:+ b) +:+ c) = String x (a +:+ b +:+ c)).
  by rewrite IH.
Qed.

Lemma contains_here (s b : string) : contains (s +:+ b) s = true.
Proof. apply (contains_app "" s b). Qed.

Lemma contains_later (a t s : string) :
  contains t s = true -> contains (a +:+ t) s = true.
Proof.
  intros H. apply contains_inv in H as (pre & post & ->).
  rewrite <- append_assoc. apply contains_app.
Qed.

(** The code's construction of the slot agrees with the template's. *)
Lemma app_name_and_ver_spec name version :
  app_name_and_ver name version = spec_app_part name version.
Proof.
  unfold app_name_and_ver, spec_app_part.
  destruct (in_empty_or_None name), (in_empty_or_None version); simpl;
    by rewrite ?append_assoc.
Qed.

Section UserAgentFacts.

Variable regions : gmap string string.
Variable versions : ap_version.versions.
Variable log : logging.module.
Variable proc : host.process.

Lemma eval_with_application name version a k :
  k ∈ keys env_param_map ->
  eval (Init.with_application name version a) k = eval a k.
Proof.
  intros Hk. unfold keys in Hk. simpl in Hk.
  repeat (apply elem_of_cons in Hk as [->|Hk]; [done|]).
  by apply elem_of_nil in Hk.
Qed.

Lemma resolve_ext a a' params : forall self,
  (forall k, k ∈ params -> eval a' k = eval a k) ->
  resolve proc a' params self = resolve proc a params self.
Proof.
  induction params as [|p rest IH]; intros self Hext; [done|].
  simpl. rewrite (Hext p) by (apply elem_of_cons; by left).
  assert (Hrest : forall k, k ∈ rest -> eval a' k = eval a k)
    by (intros k Hk; apply Hext, elem_of_cons; by right).
  destruct (eval a p) as [v|e]; simpl; [|done].
  destruct (is_None v); [|by apply IH].
  destruct (from_environ proc p); [by apply IH|done].
Qed.

(** The application name and version have no part in whether construction
    succeeds. *)
Lemma init_with_application name version a :
  succeeds (__init__ regions versions log proc
              (Init.with_application name version a)) =
  succeeds (__init__ regions versions log proc a).
Proof.
  unfold __init__.
  rewrite (resolve_ext a (Init.with_application name version a))
    by (intros k Hk; by apply eval_with_application).
  destruct (resolve proc a (keys env_param_map) ∅) as [self|e]; simpl; [|done].
  destruct (getattr self "region") as [code|]; simpl; [|done].
  destruct (resolve_region regions code) as [h|]; simpl; [|done].
  destruct (getattr self "mws_access_key") as [v1|]; simpl; [|done].
  destruct (getattr self "mws_secret_key") as [v2|]; simpl; [|done].
  destruct (getattr self "merchant_id") as [v3|]; simpl; [|done].
  destruct (getattr self "currency_code") as [v5|]; simpl; [|done].
  by destruct (setup_logging _ _ _ _) as [[]|e].
Qed.

(** C7. The User-Agent of a constructed client is the template filled with
    the SDK version, the optional application part, the interpreter version
    and the platform and release; the interpreter version and the platform
    occur in it; it is the User-Agent header; and no choice of application
    name and version changes whether construction succeeds. *)
Theorem user_agent_template a :
  (forall c, __init__ regions versions log proc a = Ok c ->
     _user_agent c =
       "amazon-pay-sdk-python/" +:+ ap_version.application_version versions
         +:+ " ("
         +:+ spec_app_part (Init.application_name a) (Init.application_version a)
         +:+ "Python/" +:+ current_py_ver proc +:+ "; "
         +:+ host.system proc +:+ "/" +:+ host.release proc +:+ ")" /\
     contains (_user_agent c) (current_py_ver proc) = true /\
     contains (_user_agent c) (host.system proc) = true /\
     dict_get "User-Agent" (_headers c) = Some (PyStr (_user_agent c))) /\
  (forall name version,
     succeeds (__init__ regions versions log proc
                 (Init.with_application name version a)) =
     succeeds (__init__ regions versions log proc a)).
Proof.
  split; [|intros name version; apply init_with_application].
  intros c Hc.
  destruct (init_inv _ _ _ _ a c Hc)
    as (self & _ & _ & _ & _ & _ & _ & _ & _ & _ & ->).
  cbn [_user_agent _headers set__user_agent_headers dict_get].
  unfold user_agent, format_user_agent. rewrite app_name_and_ver_spec.
  repeat split.
  - do 5 apply contains_later. apply contains_here.
  - do 7 apply contains_later. apply contains_here.
Qed.

End UserAgentFacts.

(** *** The User-Agent on the sample installation *)

Lemma user_agent_template_witness :
  exists c,
    Sample.new Sample.bare
      (Init.with_application (PyStr "shop") (PyStr "1.2") Sample.explicit)
      = Ok c /\
    _user_agent c =
      "amazon-pay-sdk-python/2.7.1 (shop/1.2; Python/3.11.4; Linux/6.1.0)" /\
    contains (_user_agent c) "3.11.4" = true /\
    contains (_user_agent c) "Linux" = true.
Proof.
  eexists. split; [vm_compute; reflexivity|].
  destruct (proj1 (user_agent_template Sample.regions Sample.versions
                     Sample.log Sample.bare
                     (Init.with_application (PyStr "shop") (PyStr "1.2")
                        Sample.explicit)) _ eq_refl)
    as (Hua & Hver & Hsys & _).
  exact (conj Hua (conj Hver Hsys)).
Defined.

(** ** Report operations and dispatch *)

Lemma merge_options_other opts options : forall params k,
  (k ∈ opts -> forall v, dict_get k options = Some v -> is_None v = true) ->
  dict_get k (merge_options opts options params) = dict_get k params.
Proof.
  induction opts as [|opt rest IH]; intros params k Hk; [done|].
  assert (Hrest : k ∈ rest ->
            forall v, dict_get k options = Some v -> is_None v = true)
    by (intros Hin; apply Hk, elem_of_cons; by right).
  simpl. destruct (dict_get opt options) as [w|] eqn:E; [|by apply IH].
  destruct (is_None w) eqn:Ew; simpl; [by apply IH|].
  rewrite IH by done. apply dict_get_set_ne. intros ->.
  rewrite (Hk (proj2 (elem_of_cons _ _ _) (or_introl eq_refl)) w E) in Ew. done.
Qed.

Lemma merge_options_set opts options : forall params k v,
  k ∈ opts -> dict_get k options = Some v -> is_None v = false ->
  dict_get k (merge_options opts options params) = Some v.
Proof.
  induction opts as [|opt rest IH]; intros params k v Hk Hv Hnn.
  - by apply elem_of_nil in Hk.
  - simpl. destruct (decide (k ∈ rest)) as [Hin|Hnotin].
    + destruct (dict_get opt options) as [w|]; [|by apply IH].
      destruct (is_None w); simpl; by apply IH.
    + apply elem_of_cons in Hk as [->|Hk]; [|done].
      rewrite Hv, Hnn. simpl.
      rewrite merge_options_other by done. apply dict_get_set_eq.
Qed.

(** The lookup of an optional key of a literal [optionals] in the merged
    mapping, by cases on its value being [None]. *)
Ltac optional_key :=
  match goal with
  | |- dict_get ?k (merge_options _ _ _) = (if is_None ?x then _ else _) =>
      destruct (is_None x) eqn:?;
      [ rewrite merge_options_other; [reflexivity|];
        let H := fresh in
        intros _ ? H; cbn in H; injection H as <-; assumption
      | apply merge_options_set;
        [ cbv [keys map fst];
          repeat first [apply list_elem_of_here | apply list_elem_of_further]
        | reflexivity
        | assumption ] ]
  end.

Section DispatchFacts.

Variable Request Response World : Type.
Variable ReportRequest : pydict pyval -> pydict pyobj -> Request.
Variable send_post : Request -> World -> Request * World.
Variable response : Request -> Response.

Abbreviation _operation := (_operation ReportRequest send_post response).
Abbreviation get_report_list := (get_report_list ReportRequest send_post response).
Abbreviation get_report := (get_report ReportRequest send_post response).
Abbreviation update_report_acknowledgements :=
  (update_report_acknowledgements ReportRequest send_post response).
Abbreviation invoke := (invoke ReportRequest send_post response).

(** What [_operation] does, step by step. *)
Lemma operation_run params options (s : session Request World) :
  let merged :=
    match options with
    | Some options => merge_options (keys options) options params
    | None => params
    end in
  let request := ReportRequest merged (config (this s)) in
  _operation params options s =
  (response (fst (send_post request (world s))),
   {| this := this s;
      world := snd (send_post request (world s));
      calls := (calls s ++ [NewRequest merged (config (this s));
                            SendPost request])%list |}).
Proof.
  unfold _operation, bind, new_ReportRequest, call_send_post, log_call.
  simpl. destruct (send_post _ _) as [request' w]. simpl.
  by rewrite <- app_assoc.
Qed.

Lemma count_after_dispatch (cs : list (call Request)) p cfg r :
  requests_constructed (cs ++ [NewRequest p cfg; SendPost r])%list
    = S (requests_constructed cs) /\
  send_post_count (cs ++ [NewRequest p cfg; SendPost r])%list
    = S (send_post_count cs).
Proof.
  unfold requests_constructed, send_post_count.
  rewrite !List.filter_app, !length_app. simpl. lia.
Qed.

(** [get_report_list] hands over its action and exactly the optional
    parameters that are not [None], each under its key. *)
Lemma get_report_list_params
    available_from available_to acknowledged report_type_list merchant_id
    mws_auth_token (s : session Request World) :
  exists params,
    calls (snd (get_report_list available_from available_to acknowledged
                  report_type_list merchant_id mws_auth_token s))
      = (calls s ++ [NewRequest params (config (this s));
                     SendPost (ReportRequest params (config (this s)))])%list /\
    dict_get "Action" params = Some (PyStr "GetReportList") /\
    dict_get "AvailableFromDate" params
      = (if is_None available_from then None else Some available_from) /\
    dict_get "AvailableToDate" params
      = (if is_None available_to then None else Some available_to) /\
    dict_get "Acknowledged" params
      = (if is_None acknowledged then None else Some acknowledged) /\
    dict_get "ReportTypeList.Type.1" params
      = (if is_None report_type_list then None else Some report_type_list) /\
    dict_get "SellerId" params
      = (if is_None merchant_id then None else Some merchant_id) /\
    dict_get "MWSAuthToken" params
      = (if is_None mws_auth_token then None else Some mws_auth_token).
Proof.
  exists (merge_options
            [ "AvailableFromDate"; "AvailableToDate"; "Acknowledged";
              "ReportTypeList.Type.1"; "SellerId"; "MWSAuthToken" ]
            [ ("AvailableFromDate", available_from);
              ("AvailableToDate", available_to);
              ("Acknowledged", acknowledged);
              ("ReportTypeList.Type.1", report_type_list);
              ("SellerId", merchant_id);
              ("MWSAuthToken", mws_auth_token) ]
            [ ("Action", PyStr "GetReportList") ]).
  split; [unfold get_report_list; by rewrite operation_run|].
  split; [by rewrite merge_options_other by (intros _ ? [=])|].
  repeat split; optional_key.
Qed.

(** So does [get_report], next to its report id. *)
Lemma get_report_params report_id merchant_id mws_auth_token
    (s : session Request World) :
  exists params,
    calls (snd (get_report report_id merchant_id mws_auth_token s))
      = (calls s ++ [NewRequest params (config (this s));
                     SendPost (ReportRequest params (config (this s)))])%list /\
    dict_get "Action" params = Some (PyStr "GetReport") /\
    dict_get "ReportId" params = Some report_id /\
    dict_get "SellerId" params
      = (if is_None merchant_id then None else Some merchant_id) /\
    dict_get "MWSAuthToken" params
      = (if is_None mws_auth_token then None else Some mws_auth_token).
Proof.
  exists (merge_options
            [ "SellerId"; "MWSAuthToken" ]
            [ ("SellerId", merchant_id); ("MWSAuthToken", mws_auth_token) ]
            [ ("Action", PyStr "GetReport"); ("ReportId", report_id) ]).
  split; [unfold get_report; by rewrite operation_run|].
  do 2 (split; [by rewrite merge_options_other by (intros _ ? [=])|]).
  repeat split; optional_key.
Qed.

(** [update_report_acknowledgements] filters the seller id and the token,
    and hands over [acknowledged] whatever it is. *)
Lemma update_report_acknowledgements_params
    report_id acknowledged merchant_id mws_auth_token
    (s : session Request World) :
  exists params,
    calls (snd (update_report_acknowledgements report_id acknowledged
                  merchant_id mws_auth_token s))
      = (calls s ++ [NewRequest params (config (this s));
                     SendPost (ReportRequest params (config (this s)))])%list /\
    dict_get "Action" params = Some (PyStr "UpdateReportAcknowledgements") /\
    dict_get "ReportIdList.Id.1" params = Some report_id /\
    dict_get "Acknowledged" params = Some acknowledged /\
    dict_get "SellerId" params
      = (if is_None merchant_id then None else Some merchant_id) /\
    dict_get "MWSAuthToken" params
      = (if is_None mws_auth_token then None else Some mws_auth_token).
Proof.
  exists (merge_options
            [ "SellerId"; "MWSAuthToken" ]
            [ ("SellerId", merchant_id); ("MWSAuthToken", mws_auth_token) ]
            [ ("Action", PyStr "UpdateReportAcknowledgements");
              ("ReportIdList.Id.1", report_id);
              ("Acknowledged", acknowledged) ]).
  split; [unfold update_report_acknowledgements; by rewrite operation_run|].
  do 3 (split; [by rewrite merge_options_other by (intros _ ? [=])|]).
  repeat split; optional_key.
Qed.

(** C2, at the failing input. [update_report_acknowledgements] called with
    [acknowledged] left at [None] hands the collaborator a parameter mapping
    in which [Acknowledged] is bound to [None]; with the other optional
    arguments at their defaults the mapping is the three-entry literal. *)
Theorem update_report_acknowledgements_sends_None
    report_id merchant_id mws_auth_token (s : session Request World) :
  (exists params,
     calls (snd (update_report_acknowledgements report_id PyNone
                   merchant_id mws_auth_token s))
       = (calls s ++ [NewRequest params (config (this s));
                      SendPost (ReportRequest params (config (this s)))])%list /\
     dict_get "Acknowledged" params = Some PyNone) /\
  (let params :=
     [ ("Action", PyStr "UpdateReportAcknowledgements");
       ("ReportIdList.Id.1", report_id);
       ("Acknowledged", PyNone) ] in
   calls (snd (update_report_acknowledgements report_id PyNone PyNone PyNone s))
     = (calls s ++ [NewRequest params (config (this s));
                    SendPost (ReportRequest params (config (this s)))])%list).
Proof.
  split.
  - destruct (update_report_acknowledgements_params report_id PyNone
                merchant_id mws_auth_token s) as (params & Hc & _ & _ & Ha & _).
    by exists params.
  - unfold update_report_acknowledgements. by rewrite operation_run.
Qed.

(** C8. The sandbox setter changes the sandbox flag and the endpoint and
    leaves every other attribute as it was; no public operation changes the
    instance. *)
Theorem sandbox_setter_frame value self :
  (mws_access_key (sandbox_setter value self) = mws_access_key self /\
   mws_secret_key (sandbox_setter value self) = mws_secret_key self /\
   merchant_id (sandbox_setter value self) = merchant_id self /\
   region (sandbox_setter value self) = region self /\
   currency_code (sandbox_setter value self) = currency_code self /\
   _region (sandbox_setter value self) = _region self /\
   _region_code (sandbox_setter value self) = _region_code self /\
   handle_throttle (sandbox_setter value self) = handle_throttle self /\
   application_name (sandbox_setter value self) = application_name self /\
   application_version (sandbox_setter value self) = application_version self /\
   _api_version (sandbox_setter value self) = _api_version self /\
   _api_name (sandbox_setter value self) = _api_name self /\
   _application_library_version (sandbox_setter value self)
     = _application_library_version self /\
   _user_agent (sandbox_setter value self) = _user_agent self /\
   _headers (sandbox_setter value self) = _headers self) /\
  (forall i (s : session Request World), this (snd (invoke i s)) = this s).
Proof.
  split; [by repeat split|].
  intros i s. destruct i; simpl;
    unfold get_report_list, get_report, update_report_acknowledgements;
    by rewrite operation_run.
Qed.

(** C9. Every call of a public operation is a call of the dispatch routine
    with the operation's parameters and optionals; it constructs one request
    object, from the merged parameters and the seven-key config mapping,
    calls [send_post] once, on that object, and returns the [response] of
    the object [send_post] leaves. *)
Theorem dispatch_one_request i (s : session Request World) :
  exists params options,
    invoke i s = _operation params (Some options) s /\
    let merged := merge_options (keys options) options params in
    let request := ReportRequest merged (config (this s)) in
    calls (snd (invoke i s))
      = (calls s ++ [NewRequest merged (config (this s)); SendPost request])%list /\
    requests_constructed (calls (snd (invoke i s)))
      = S (requests_constructed (calls s)) /\
    send_post_count (calls (snd (invoke i s))) = S (send_post_count (calls s)) /\
    fst (invoke i s) = response (fst (send_post request (world s))) /\
    world (snd (invoke i s)) = snd (send_post request (world s)) /\
    keys (config (this s))
      = [ "mws_access_key"; "mws_secret_key"; "api_version"; "merchant_id";
          "mws_endpoint"; "headers"; "handle_throttle" ] /\
    has_key "currency_code" (config (this s)) = false /\
    has_key "region" (config (this s)) = false.
Proof.
  assert (Hop : forall params options,
            let merged := merge_options (keys options) options params in
            let request := ReportRequest merged (config (this s)) in
            calls (snd (_operation params (Some options) s))
              = (calls s ++ [NewRequest merged (config (this s));
                             SendPost request])%list /\
            requests_constructed (calls (snd (_operation params (Some options) s)))
              = S (requests_constructed (calls s)) /\
            send_post_count (calls (snd (_operation params (Some options) s)))
              = S (send_post_count (calls s)) /\
            fst (_operation params (Some options) s)
              = response (fst (send_post request (world s))) /\
            world (snd (_operation params (Some options) s))
              = snd (send_post request (world s))).
  { intros params options merged request. subst merged request.
    rewrite operation_run. cbn [fst snd calls world].
    split; [done|].
    split; [apply count_after_dispatch|].
    split; [apply count_after_dispatch|done]. }
  destruct i as [a b c d e f|a b c|a b c d]; simpl.
  - eexists _, _. split; [reflexivity|]. simpl.
    destruct (Hop [("Action", PyStr "GetReportList")]
                [("AvailableFromDate", a); ("AvailableToDate", b);
                 ("Acknowledged", c); ("ReportTypeList.Type.1", d);
                 ("SellerId", e); ("MWSAuthToken", f)])
      as (H1 & H2 & H3 & H4 & H5).
    by repeat split.
  - eexists _, _. split; [reflexivity|]. simpl.
    destruct (Hop [("Action", PyStr "GetReport"); ("ReportId", a)]
                [("SellerId", b); ("MWSAuthToken", c)])
      as (H1 & H2 & H3 & H4 & H5).
    by repeat split.
  - eexists _, _. split; [reflexivity|]. simpl.
    destruct (Hop [("Action", PyStr "UpdateReportAcknowledgements");
                   ("ReportIdList.Id.1", a); ("Acknowledged", b)]
                [("SellerId", c); ("MWSAuthToken", d)])
      as (H1 & H2 & H3 & H4 & H5).
    by repeat split.
Qed.

End DispatchFacts.

(** *** The operations on the sample collaborator *)

(** [update_report_acknowledgements] on the sample collaborator, for report
    123 and every other argument at its default. *)
Lemma update_report_acknowledgements_default_call c :
  update_report_acknowledgements Sample.ReportRequest Sample.send_post
    Sample.response (PyInt 123) PyNone PyNone PyNone (Sample.fresh c)
  = (true,
     {| this := c;
        world := 1;
        calls :=
          [ NewRequest
              [ ("Action", PyStr "UpdateReportAcknowledgements");
                ("ReportIdList.Id.1", PyInt 123);
                ("Acknowledged", PyNone) ]
              (config c);
            SendPost
              (Sample.ReportRequest
                 [ ("Action", PyStr "UpdateReportAcknowledgements");
                   ("ReportIdList.Id.1", PyInt 123);
                   ("Acknowledged", PyNone) ]
                 (config c)) ] |}).
Proof. reflexivity. Qed.

(** [get_report_list] with the same [None] leaves the key out. *)
Lemma get_report_list_default_call c :
  calls (snd (get_report_list Sample.ReportRequest Sample.send_post
                Sample.response PyNone PyNone PyNone PyNone PyNone PyNone
                (Sample.fresh c)))
  = [ NewRequest [ ("Action", PyStr "GetReportList") ] (config c);
      SendPost
        (Sample.ReportRequest [ ("Action", PyStr "GetReportList") ] (config c)) ].
Proof. reflexivity. Qed.

(** * Further properties of the constructor *)

Section ConstructionFacts.

Variable regions : gmap string string.
Variable versions : ap_version.versions.
Variable log : logging.module.
Variable proc : host.process.

Abbreviation __init__ := (__init__ regions versions log proc).

(** With the loop done, the region in the table and the logging set up,
    nothing else can fail. *)
Lemma init_ok a self code h :
  resolve proc a (keys env_param_map) ∅ = Ok self ->
  self !! "region" = Some code ->
  regions_getitem regions code = Some h ->
  setup_logging log (Init.log_enabled a) (Init.log_file_name a)
    (Init.log_level a) = Ok tt ->
  succeeds (__init__ a) = true.
Proof.
  intros Hres Hcode Hh Hlog.
  assert (Hin : forall k, k ∈ keys env_param_map -> is_Some (self !! k)).
  { intros k Hk. destruct (resolve_sets _ _ _ _ Hres Hk) as (v & -> & _).
    by eexists. }
  unfold __init__, getattr, resolve_region.
  rewrite Hres. simpl. rewrite Hcode. simpl. rewrite Hh. simpl.
  destruct (Hin "mws_access_key") as [v1 ->]; [env_key|]. simpl.
  destruct (Hin "mws_secret_key") as [v2 ->]; [env_key|]. simpl.
  destruct (Hin "merchant_id") as [v3 ->]; [env_key|]. simpl.
  destruct (Hin "currency_code") as [v5 ->]; [env_key|]. simpl.
  by rewrite Hlog.
Qed.

(** When no field is missing the loop ends, and what it stores as the region
    is what the spec's resolver gives. *)
Lemma resolve_region_code a :
  first_missing proc a = None ->
  exists self code,
    resolve proc a (keys env_param_map) ∅ = Ok self /\
    self !! "region" = Some code /\
    spec_resolve proc (Init.region a) "AP_REGION" = Some code.
Proof.
  intros Hnone. pose proof (none_missing_resolves proc a Hnone) as Hs.
  destruct (resolve proc a (keys env_param_map) ∅) as [self|e] eqn:Hres;
    [|done].
  destruct (resolve_sets proc a self "region" Hres ltac:(env_key))
    as (code & Hcode & _ & Hp).
  exists self, code. split; [done|]. split; [done|].
  by apply (resolve_param_spec proc a "region" "AP_REGION" (Init.region a) code).
Qed.

(** X1. Construction succeeds exactly when no required field is missing, the
    resolved region code is a key of the region table, and the logging
    set-up does not raise. *)
Theorem init_succeeds_iff a :
  succeeds (__init__ a) = true <->
  first_missing proc a = None /\
  (exists code,
     spec_resolve proc (Init.region a) "AP_REGION" = Some code /\
     is_Some (regions_getitem regions code)) /\
  setup_logging log (Init.log_enabled a) (Init.log_file_name a)
    (Init.log_level a) = Ok tt.
Proof.
  split.
  - intros Hs. destruct (__init__ a) as [c|e] eqn:Hc; [|done].
    destruct (init_inv _ _ _ _ a c Hc)
      as (self & Hres & _ & _ & _ & H4 & _ & Hh & _ & Hlog & _).
    split; [|split; [|done]].
    + destruct (first_missing proc a) as [g|] eqn:Hg; [|done].
      rewrite (first_missing_raises proc a g Hg) in Hres. done.
    + exists (region c). split; [|by eexists].
      by apply (resolved_field proc a self "region" "AP_REGION"
                  (Init.region a) (region c) Hres ltac:(env_key)).
  - intros (Hnone & (code & Hcode & [h Hh]) & Hlog).
    destruct (resolve_region_code a Hnone) as (self & code' & Hres & Hr & Hc').
    assert (code' = code) as -> by congruence.
    by apply (init_ok a self code h).
Qed.


End ConstructionFacts.


(** ** The environment *)

Lemma dict_get_elem_of {V} (k : string) (v : V) (d : pydict V) :
  dict_get k d = Some v -> (k, v) ∈ d.
Proof.
  induction d as [|[k' v'] d IH]; simpl; [done|].
  destruct (String.eqb k k') eqn:E.
  - apply String.eqb_eq in E as ->. intros [= ->]. apply elem_of_cons. by left.
  - intros H. apply elem_of_cons. right. by apply IH.
Qed.

(** The loop reads the environment only for an argument that is [None]. *)
Lemma resolve_environ proc proc' a params : forall self,
  Forall (fun pv => eval a (fst pv) = Ok PyNone ->
                    host.environ proc' !! snd pv = host.environ proc !! snd pv)
         env_param_map ->
  resolve proc' a params self = resolve proc a params self.
Proof.
  intros self Henv. revert self.
  induction params as [|p rest IH]; intros self; [done|].
  simpl. destruct (eval a p) as [v|e] eqn:Ev; simpl; [|done].
  destruct (is_None v) eqn:En; [|apply IH].
  assert (from_environ proc' p = from_environ proc p) as ->.
  { unfold from_environ.
    destruct (dict_get p env_param_map) as [var|] eqn:Ep; [|done]. simpl.
    rewrite Forall_forall in Henv.
    apply (Henv (p, var)); [by apply dict_get_elem_of|].
    simpl. by destruct v. }
  destruct (from_environ proc p); [apply IH|done].
Qed.

(** X3. Construction reads an environment variable only when the argument
    it stands in for is [None]: two processes that agree on the variables of
    the omitted arguments, and on the interpreter and platform, give the
    same result. *)
Theorem init_reads_omitted_variables_only regions versions log proc proc' a :
  Forall (fun pv => eval a (fst pv) = Ok PyNone ->
                    host.environ proc' !! snd pv = host.environ proc !! snd pv)
         env_param_map ->
  host.version_info proc' = host.version_info proc ->
  host.system proc' = host.system proc ->
  host.release proc' = host.release proc ->
  __init__ regions versions log proc' a = __init__ regions versions log proc a.
Proof.
  intros Henv Hv Hs Hr. unfold __init__.
  rewrite (resolve_environ proc proc' a _ _ Henv).
  unfold user_agent, current_py_ver. by rewrite Hv, Hs, Hr.
Qed.

Lemma init_reads_omitted_variables_only_witness :
  Sample.new Sample.configured Sample.unknown_region
  = Sample.new Sample.bare Sample.unknown_region.
Proof.
  apply (init_reads_omitted_variables_only Sample.regions Sample.versions
           Sample.log Sample.bare Sample.configured Sample.unknown_region);
    [|reflexivity..].
  repeat constructor; simpl; intros H; discriminate H.
Defined.

(** ** Logging *)

Section LoggingFacts.

Variable regions : gmap string string.
Variable versions : ap_version.versions.
Variable proc : host.process.

Lemma eval_with_logging enabled file level a k :
  k ∈ keys env_param_map ->
  eval (Init.with_logging enabled file level a) k = eval a k.
Proof.
  intros Hk. unfold keys in Hk. simpl in Hk.
  repeat (apply elem_of_cons in Hk as [->|Hk]; [done|]).
  by apply elem_of_nil in Hk.
Qed.

(** Two calls that differ in the logging arguments only, and whose logging
    set-ups end alike, end alike. *)
Lemma init_logging_ext log log' enabled file level a :
  setup_logging log' enabled file level
  = setup_logging log (Init.log_enabled a) (Init.log_file_name a)
      (Init.log_level a) ->
  __init__ regions versions log' proc (Init.with_logging enabled file level a)
  = __init__ regions versions log proc a.
Proof.
  intros Hlog. unfold __init__.
  rewrite (resolve_ext proc a (Init.with_logging enabled file level a))
    by (intros k Hk; by apply eval_with_logging).
  simpl. by rewrite Hlog.
Qed.

(** X4. With [log_enabled] left at [False], the [logging] module is never
    consulted and [log_file_name] and [log_level] are ignored: the result of
    construction, success or failure, is the same for any of them. *)
Theorem disabled_logging_is_ignored log log' file level a :
  Init.log_enabled a = PyBool false ->
  __init__ regions versions log' proc
    (Init.with_logging (PyBool false) file level a)
  = __init__ regions versions log proc a.
Proof.
  intros He. apply init_logging_ext. unfold setup_logging. by rewrite He.
Qed.

(** X5. Logging never changes the client: a construction that succeeds gives
    the client the same call gives with logging switched off. *)
Theorem logging_does_not_change_client log a c :
  __init__ regions versions log proc a = Ok c ->
  __init__ regions versions log proc
    (Init.with_logging (PyBool false) PyNone PyNone a) = Ok c.
Proof.
  intros Hc.
  destruct (init_inv _ _ _ _ a c Hc) as (_ & _ & _ & _ & _ & _ & _ & _ & _ & Hlog & _).
  rewrite <- Hc. apply init_logging_ext. by rewrite Hlog.
Qed.

(** X6. A level name the [logging] module does not know is passed over in
    silence: no handler is installed and construction goes on as with
    logging switched off. *)
Theorem unknown_log_level_is_silent log a name :
  Init.log_level a = PyStr name ->
  logging.getattr_upper log name = PyNone ->
  __init__ regions versions log proc a
  = __init__ regions versions log proc
      (Init.with_logging (PyBool false) PyNone PyNone a).
Proof.
  intros Hl Hn. symmetry. apply init_logging_ext.
  unfold setup_logging. rewrite Hl, Hn. simpl.
  by destruct (is_not_False (Init.log_enabled a)).
Qed.

(** X7. With [log_enabled] anything but [False] (a falsy [None], [0] or
    empty string included) and the five fields and the region in order, a
    [log_level] that is not a string, be it the integer the docstring asks
    for, makes construction raise the attribute error of the missing
    [upper], named after the type of the level. *)
Theorem non_string_log_level_raises log a self code h :
  resolve proc a (keys env_param_map) ∅ = Ok self ->
  self !! "region" = Some code ->
  regions_getitem regions code = Some h ->
  is_not_False (Init.log_enabled a) = true ->
  (forall name, Init.log_level a <> PyStr name) ->
  __init__ regions versions log proc a =
  Raise (AttributeError
           ("'" +:+ type_name (Init.log_level a)
              +:+ "' object has no attribute 'upper'")).
Proof.
  intros Hres Hcode Hh He Hl.
  apply (init_logging regions versions log proc a self code h); [done..|].
  unfold setup_logging. rewrite He.
  destruct (Init.log_level a) as [|b|z|name]; try done.
  by destruct (Hl name).
Qed.

(** X8. A constructed client holds [sandbox], [handle_throttle],
    [application_name] and [application_version] as they were passed, of
    whatever type, and the API version, API name and library version of the
    version table. *)
Theorem init_stores_arguments log a c :
  __init__ regions versions log proc a = Ok c ->
  sandbox c = Init.sandbox a /\
  handle_throttle c = Init.handle_throttle a /\
  application_name c = Init.application_name a /\
  application_version c = Init.application_version a /\
  _api_version c = ap_version.api_version versions /\
  _api_name c = ap_version.api_name versions /\
  _application_library_version c = ap_version.application_version versions.
Proof.
  intros Hc.
  destruct (init_inv _ _ _ _ a c Hc) as (_ & _ & _ & _ & _ & _ & _ & _ & _ & _ & ->).
  done.
Qed.

End LoggingFacts.

Lemma disabled_logging_is_ignored_witness :
  __init__ Sample.regions Sample.versions Sample.log Sample.bare
    (Init.with_logging (PyBool false) (PyStr "client.log") (PyInt 10)
       Sample.explicit)
  = Sample.new Sample.bare Sample.explicit.
Proof.
  apply (disabled_logging_is_ignored Sample.regions Sample.versions
           Sample.bare Sample.log Sample.log (PyStr "client.log") (PyInt 10)
           Sample.explicit).
  reflexivity.
Defined.

Lemma logging_does_not_change_client_witness :
  exists c,
    Sample.new Sample.bare
      (Init.with_logging (PyBool true) PyNone (PyStr "debug") Sample.explicit)
      = Ok c /\
    Sample.new Sample.bare
      (Init.with_logging (PyBool false) PyNone PyNone
         (Init.with_logging (PyBool true) PyNone (PyStr "debug")
            Sample.explicit))
      = Ok c.
Proof.
  eexists. split; [vm_compute; reflexivity|].
  apply (logging_does_not_change_client Sample.regions Sample.versions
           Sample.bare Sample.log
           (Init.with_logging (PyBool true) PyNone (PyStr "debug")
              Sample.explicit)).
  reflexivity.
Defined.

Lemma unknown_log_level_is_silent_witness :
  Sample.new Sample.bare
    (Init.with_logging (PyBool true) PyNone (PyStr "verbose") Sample.explicit)
  = Sample.new Sample.bare
      (Init.with_logging (PyBool false) PyNone PyNone
         (Init.with_logging (PyBool true) PyNone (PyStr "verbose")
            Sample.explicit)).
Proof.
  apply (unknown_log_level_is_silent Sample.regions Sample.versions
           Sample.bare Sample.log
           (Init.with_logging (PyBool true) PyNone (PyStr "verbose")
              Sample.explicit) "verbose");
    reflexivity.
Defined.

Lemma non_string_log_level_raises_witness :
  Sample.new Sample.bare
    (Init.with_logging (PyInt 0) PyNone (PyInt 10) Sample.explicit)
  = Raise (AttributeError "'int' object has no attribute 'upper'").
Proof.
  refine (non_string_log_level_raises Sample.regions Sample.versions
            Sample.bare Sample.log
            (Init.with_logging (PyInt 0) PyNone (PyInt 10) Sample.explicit)
            _ (PyStr "na") "mws.amazonservices.com" _ _ _ eq_refl _).
  - vm_compute. reflexivity.
  - vm_compute. reflexivity.
  - vm_compute. reflexivity.
  - intros name H. discriminate H.
Defined.

Lemma init_stores_arguments_witness :
  exists c,
    Sample.new Sample.bare Sample.explicit = Ok c /\
    sandbox c = PyBool false /\ handle_throttle c = PyBool true.
Proof.
  eexists. split; [vm_compute; reflexivity|].
  destruct (init_stores_arguments Sample.regions Sample.versions Sample.bare
              Sample.log Sample.explicit _ eq_refl) as (Hs & Ht & _).
  exact (conj Hs Ht).
Defined.

(** * Further properties of the sandbox property *)

Lemma sandbox_setter_twice v1 v2 self :
  sandbox_setter v2 (sandbox_setter v1 self) = sandbox_setter v2 self.
Proof. reflexivity. Qed.

Lemma sandbox_setter_after_setting values v self :
  sandbox_setter v (after_setting values self) = sandbox_setter v self.
Proof.
  induction values as [|w values IH] using rev_ind; [done|].
  by rewrite after_setting_snoc, sandbox_setter_twice.
Qed.

(** X9. The last assignment to [sandbox] wins: after any sequence of
    assignments the client is as if only the last had been made. *)
Theorem last_sandbox_assignment_wins values v self :
  after_setting (values ++ [v])%list self = sandbox_setter v self /\
  sandbox (after_setting (values ++ [v])%list self) = v.
Proof.
  rewrite after_setting_snoc, sandbox_setter_after_setting. by split.
Qed.

(** Assignments to [sandbox] keep what the config mapping is built from,
    the endpoint apart. *)
Lemma after_setting_frame values self :
  mws_access_key (after_setting values self) = mws_access_key self /\
  mws_secret_key (after_setting values self) = mws_secret_key self /\
  merchant_id (after_setting values self) = merchant_id self /\
  handle_throttle (after_setting values self) = handle_throttle self /\
  _headers (after_setting values self) = _headers self.
Proof.
  induction values as [|value values IH] using rev_ind; [done|].
  rewrite after_setting_snoc. exact IH.
Qed.

Section SandboxFacts.

Variable regions : gmap string string.
Variable versions : ap_version.versions.
Variable log : logging.module.
Variable proc : host.process.

(** X10. On a constructed client, assigning to [sandbox] the value it
    already has changes nothing at all. *)
Theorem sandbox_setter_current_value a c :
  __init__ regions versions log proc a = Ok c ->
  sandbox_setter (sandbox c) c = c.
Proof.
  intros Hc.
  destruct (init_endpoint regions versions log proc a c Hc) as (_ & _ & _ & He).
  destruct c. simpl in He.
  unfold sandbox_setter, _set_endpoint, set__mws_endpoint, set__sandbox, sandbox.
  simpl. by rewrite He.
Qed.

Lemma config_after_setting a c values :
  __init__ regions versions log proc a = Ok c ->
  config (after_setting values c) = config c.
Proof.
  intros Hc.
  destruct (init_endpoint regions versions log proc a c Hc) as (_ & _ & _ & He).
  unfold config.
  rewrite (after_setting_endpoint values c He).
  destruct (after_setting_fixed values c) as (_ & _ & ->).
  by destruct (after_setting_frame values c) as (-> & -> & -> & -> & ->).
Qed.

(** X11. The sandbox flag never reaches the collaborator: whatever was
    assigned to [sandbox] of a constructed client, every public operation
    constructs the same request, makes the same calls and returns the same
    response as without the assignments. *)
Theorem sandbox_does_not_affect_requests
    (Request Response World : Type)
    (ReportRequest : pydict pyval -> pydict pyobj -> Request)
    (send_post : Request -> World -> Request * World)
    (response : Request -> Response)
    a c values i w cs :
  __init__ regions versions log proc a = Ok c ->
  config (after_setting values c) = config c /\
  has_key "sandbox" (config c) = false /\
  let s := {| this := c; world := w; calls := cs |} in
  let s' := {| this := after_setting values c; world := w; calls := cs |} in
  fst (invoke ReportRequest send_post response i s')
    = fst (invoke ReportRequest send_post response i s) /\
  calls (snd (invoke ReportRequest send_post response i s'))
    = calls (snd (invoke ReportRequest send_post response i s)) /\
  world (snd (invoke ReportRequest send_post response i s'))
    = world (snd (invoke ReportRequest send_post response i s)).
Proof.
  intros Hc. pose proof (config_after_setting a c values Hc) as Hcfg.
  split; [done|]. split; [done|].
  destruct i; simpl;
    unfold get_report_list, get_report, update_report_acknowledgements;
    rewrite !operation_run; simpl; by rewrite Hcfg.
Qed.

(** X12. The config mapping every request of a constructed client is built
    with: the resolved credentials and merchant id, the API version of the
    version table, the endpoint of the region host, the two headers, and
    the throttle flag as passed. *)
Theorem constructed_config a c :
  __init__ regions versions log proc a = Ok c ->
  config c =
  [ ("mws_access_key", Scalar (mws_access_key c));
    ("mws_secret_key", Scalar (mws_secret_key c));
    ("api_version", Scalar (PyStr (ap_version.api_version versions)));
    ("merchant_id", Scalar (merchant_id c));
    ("mws_endpoint",
     Scalar (PyStr (endpoint_url (_region c) (ap_version.api_name versions)
                      (ap_version.api_version versions))));
    ("headers",
     Dict [ ("Content-Type", PyStr "application/x-www-form-urlencoded");
            ("User-Agent",
             PyStr (user_agent proc (ap_version.application_version versions)
                      (Init.application_name a) (Init.application_version a))) ]);
    ("handle_throttle", Scalar (Init.handle_throttle a)) ] /\
  spec_resolve proc (Init.mws_access_key a) "AP_MWS_ACCESS_KEY"
    = Some (mws_access_key c) /\
  spec_resolve proc (Init.mws_secret_key a) "AP_MWS_SECRET_KEY"
    = Some (mws_secret_key c) /\
  spec_resolve proc (Init.merchant_id a) "AP_MERCHANT_ID"
    = Some (merchant_id c) /\
  regions_getitem regions (region c) = Some (_region c).
Proof.
  intros Hc.
  destruct (init_inv _ _ _ _ a c Hc)
    as (self & Hres & H1 & H2 & H3 & _ & _ & Hh & _ & _ & Hrec).
  split; [by rewrite Hrec at 1|].
  pose proof (resolved_field proc a self "mws_access_key" _ _ _ Hres
                ltac:(env_key) eq_refl eq_refl H1) as [F1 _].
  pose proof (resolved_field proc a self "mws_secret_key" _ _ _ Hres
                ltac:(env_key) eq_refl eq_refl H2) as [F2 _].
  pose proof (resolved_field proc a self "merchant_id" _ _ _ Hres
                ltac:(env_key) eq_refl eq_refl H3) as [F3 _].
  done.
Qed.

End SandboxFacts.

Lemma sandbox_setter_current_value_witness :
  exists c,
    Sample.new Sample.bare Sample.explicit = Ok c /\
    sandbox_setter (sandbox c) c = c.
Proof.
  eexists. split; [vm_compute; reflexivity|].
  apply (sandbox_setter_current_value Sample.regions Sample.versions
           Sample.log Sample.bare Sample.explicit).
  reflexivity.
Defined.

Lemma sandbox_does_not_affect_requests_witness :
  exists c,
    Sample.new Sample.bare Sample.explicit = Ok c /\
    calls (snd (invoke Sample.ReportRequest Sample.send_post Sample.response
                  (GetReport (PyInt 7) PyNone PyNone)
                  {| this := after_setting [PyBool true] c;
                     world := 0; calls := [] |}))
    = calls (snd (invoke Sample.ReportRequest Sample.send_post Sample.response
                    (GetReport (PyInt 7) PyNone PyNone)
                    {| this := c; world := 0; calls := [] |})).
Proof.
  eexists. split; [vm_compute; reflexivity|].
  destruct (sandbox_does_not_affect_requests Sample.regions Sample.versions
              Sample.log Sample.bare Sample.request bool nat
              Sample.ReportRequest Sample.send_post Sample.response
              Sample.explicit _ [PyBool true]
              (GetReport (PyInt 7) PyNone PyNone) 0 [] eq_refl)
    as (_ & _ & _ & Hcalls & _).
  exact Hcalls.
Defined.

Lemma constructed_config_witness :
  exists c,
    Sample.new Sample.configured Init.defaults = Ok c /\
    dict_get "mws_endpoint" (config c)
      = Some (Scalar (PyStr "https://mws.amazonservices.com/Reports/2009-01-01")) /\
    dict_get "mws_access_key" (config c) = Some (Scalar (PyStr "AKIAEXAMPLE")).
Proof.
  eexists. split; [vm_compute; reflexivity|].
  destruct (constructed_config Sample.regions Sample.versions Sample.log
              Sample.configured Init.defaults _ eq_refl) as (Hcfg & _).
  split.
  - exact (f_equal (dict_get "mws_endpoint") Hcfg).
  - exact (f_equal (dict_get "mws_access_key") Hcfg).
Defined.

(** * Further properties of the merge and the operations *)

Lemma dict_get_in_keys {V} (k : string) (v : V) (d : pydict V) :
  dict_get k d = Some v -> k ∈ keys d.
Proof.
  intros H. apply dict_get_elem_of in H.
  unfold keys. apply list_elem_of_fmap. by exists (k, v).
Qed.

Lemma dict_get_not_in_keys {V} (k : string) (d : pydict V) :
  k ∉ keys d -> dict_get k d = None.
Proof.
  intros H. destruct (dict_get k d) as [v|] eqn:E; [|done].
  by apply dict_get_in_keys in E.
Qed.

Lemma dict_get_app_None {V} (k : string) (d d' : pydict V) :
  dict_get k d = None -> dict_get k (d ++ d')%list = dict_get k d'.
Proof.
  induction d as [|[k' v'] d IH]; simpl; [done|].
  by destruct (String.eqb k k').
Qed.

(** A key that is new to the dictionary is appended. *)
Lemma dict_set_fresh {V} (k : string) (v : V) (d : pydict V) :
  dict_get k d = None -> dict_set k v d = (d ++ [(k, v)])%list.
Proof.
  induction d as [|[k' v'] d IH]; simpl; [done|].
  destruct (String.eqb k k'); [done|]. intros H. by rewrite IH.
Qed.

(** In a dictionary, whose keys are distinct, an entry is what its key
    looks up. *)
Lemma dict_get_NoDup {V} (k : string) (v : V) (d : pydict V) :
  NoDup (keys d) -> (k, v) ∈ d -> dict_get k d = Some v.
Proof.
  induction d as [|[k' v'] d IH]; intros Hnd Hin.
  - by apply elem_of_nil in Hin.
  - apply NoDup_cons in Hnd as [Hk' Hnd]. simpl.
    apply elem_of_cons in Hin as [[= -> ->]|Hin].
    + by rewrite String.eqb_refl.
    + destruct (String.eqb k k') eqn:E; [|by apply IH].
      apply String.eqb_eq in E as ->. exfalso. apply Hk'.
      unfold keys. apply list_elem_of_fmap. by exists (k', v).
Qed.

(** The loop over a run of entries of [options] whose keys are new to
    [params] appends those that are not [None]. *)
Lemma merge_options_fresh options d : forall params,
  (forall k v, (k, v) ∈ d -> dict_get k options = Some v) ->
  NoDup (keys d) ->
  (forall k, k ∈ keys d -> dict_get k params = None) ->
  merge_options (keys d) options params = (params ++ without_None d)%list.
Proof.
  induction d as [|[k v] d IH]; intros params Hopt Hnd Hfresh.
  - simpl. by rewrite app_nil_r.
  - apply NoDup_cons in Hnd as [Hk Hnd].
    assert (Hopt' : forall k' v', (k', v') ∈ d -> dict_get k' options = Some v')
      by (intros k' v' Hin; apply Hopt, elem_of_cons; by right).
    assert (Hfresh' : forall k', k' ∈ keys d -> dict_get k' params = None)
      by (intros k' Hin; apply Hfresh, elem_of_cons; by right).
    cbn [keys map fst merge_options without_None List.filter snd].
    rewrite (Hopt k v) by (apply elem_of_cons; by left).
    destruct (is_None v) eqn:Ev; simpl.
    + by apply IH.
    + rewrite dict_set_fresh by (apply Hfresh, elem_of_cons; by left).
      change (map fst d) with (keys d).
      rewrite IH; [by rewrite <- app_assoc|done|done|].
      intros k' Hin. rewrite dict_get_app_None by by apply Hfresh'.
      simpl. destruct (String.eqb k' k) eqn:E; [|done].
      apply String.eqb_eq in E as ->. done.
Qed.

(** The keys of a literal dictionary are distinct. *)
Ltac distinct_keys :=
  match goal with
  | |- NoDup ?l => exact (bool_decide_unpack (NoDup l) I)
  end.

(** X13. What [_operation] looks up under a key after the merge: the option
    of that key when there is one and it is not [None], whatever the
    parameters held, and otherwise what the parameters held; an option that
    is [None] neither removes nor changes a parameter. *)
Theorem merge_options_lookup options params k :
  dict_get k (merge_options (keys options) options params) =
  match dict_get k options with
  | Some v => if is_None v then dict_get k params else Some v
  | None => dict_get k params
  end.
Proof.
  destruct (dict_get k options) as [v|] eqn:Ek.
  - destruct (is_None v) eqn:Ev.
    + apply merge_options_other. intros _ v' Hv'. congruence.
    + apply merge_options_set; [|done..]. by apply (dict_get_in_keys k v).
  - apply merge_options_other. intros _ v' Hv'. congruence.
Qed.

(** X14. When the keys of [options] are new to the parameters, the merged
    mapping is the parameters, in their order, followed by the options that
    are not [None], in theirs. *)
Theorem merge_options_ordered options params :
  NoDup (keys options) ->
  (forall k, k ∈ keys options -> dict_get k params = None) ->
  merge_options (keys options) options params
  = (params ++ without_None options)%list.
Proof.
  intros Hnd Hfresh. apply merge_options_fresh; [|done..].
  intros k v Hin. by apply dict_get_NoDup.
Qed.

Lemma merge_options_ordered_witness :
  merge_options
    (keys [("SellerId", PyStr "A1"); ("MWSAuthToken", PyNone)])
    [("SellerId", PyStr "A1"); ("MWSAuthToken", PyNone)]
    [("Action", PyStr "GetReport"); ("ReportId", PyInt 7)]
  = [("Action", PyStr "GetReport"); ("ReportId", PyInt 7);
     ("SellerId", PyStr "A1")].
Proof.
  apply (merge_options_ordered
           [("SellerId", PyStr "A1"); ("MWSAuthToken", PyNone)]
           [("Action", PyStr "GetReport"); ("ReportId", PyInt 7)]).
  - distinct_keys.
  - intros k Hk. unfold keys in Hk. simpl in Hk.
    repeat (apply elem_of_cons in Hk as [->|Hk]; [reflexivity|]).
    by apply elem_of_nil in Hk.
Defined.

Section OperationFacts.

Variable Request Response World : Type.
Variable ReportRequest : pydict pyval -> pydict pyobj -> Request.
Variable send_post : Request -> World -> Request * World.
Variable response : Request -> Response.

Abbreviation get_report_list := (get_report_list ReportRequest send_post response).
Abbreviation get_report := (get_report ReportRequest send_post response).
Abbreviation update_report_acknowledgements :=
  (update_report_acknowledgements ReportRequest send_post response).
Abbreviation invoke := (invoke ReportRequest send_post response).
Abbreviation invoke_all := (invoke_all ReportRequest send_post response).

(** The merge of a literal [optionals] into parameters that do not have its
    keys. *)
Ltac merge_literal :=
  rewrite merge_options_fresh;
  [ reflexivity
  | intros ? ? ?; apply dict_get_NoDup; [distinct_keys|assumption]
  | distinct_keys
  | let k := fresh in let Hk := fresh in
    intros k Hk; cbv [keys map fst] in Hk;
    repeat (apply elem_of_cons in Hk as [->|Hk]; [reflexivity|]);
    by apply elem_of_nil in Hk ].

(** X15. [get_report_list] makes one dispatch, with the action followed by
    those of its six optional arguments that are not [None], in the order
    from date, to date, acknowledged, report type, seller id, auth token. *)
Theorem get_report_list_request
    available_from available_to acknowledged report_type_list merchant_id
    mws_auth_token (s : session Request World) :
  let params :=
    ("Action", PyStr "GetReportList")
      :: without_None
           [ ("AvailableFromDate", available_from);
             ("AvailableToDate", available_to);
             ("Acknowledged", acknowledged);
             ("ReportTypeList.Type.1", report_type_list);
             ("SellerId", merchant_id);
             ("MWSAuthToken", mws_auth_token) ] in
  let request := ReportRequest params (config (this s)) in
  get_report_list available_from available_to acknowledged report_type_list
    merchant_id mws_auth_token s
  = (response (fst (send_post request (world s))),
     {| this := this s;
        world := snd (send_post request (world s));
        calls := (calls s ++ [NewRequest params (config (this s));
                              SendPost request])%list |}).
Proof.
  unfold get_report_list. rewrite operation_run. cbv zeta. merge_literal.
Qed.

(** X16. [get_report] makes one dispatch, with the action, the report id as
    it was passed, whatever it is, and then the seller id and the auth token
    when they are not [None]. *)
Theorem get_report_request report_id merchant_id mws_auth_token
    (s : session Request World) :
  let params :=
    ("Action", PyStr "GetReport")
      :: ("ReportId", report_id)
      :: without_None
           [ ("SellerId", merchant_id);
             ("MWSAuthToken", mws_auth_token) ] in
  let request := ReportRequest params (config (this s)) in
  get_report report_id merchant_id mws_auth_token s
  = (response (fst (send_post request (world s))),
     {| this := this s;
        world := snd (send_post request (world s));
        calls := (calls s ++ [NewRequest params (config (this s));
                              SendPost request])%list |}).
Proof.
  unfold get_report. rewrite operation_run. cbv zeta. merge_literal.
Qed.

(** X17. [update_report_acknowledgements] makes one dispatch, with the
    action, the report id and [acknowledged] as they were passed, whatever
    they are, and then the seller id and the auth token when they are not
    [None]. *)
Theorem update_report_acknowledgements_request
    report_id acknowledged merchant_id mws_auth_token
    (s : session Request World) :
  let params :=
    ("Action", PyStr "UpdateReportAcknowledgements")
      :: ("ReportIdList.Id.1", report_id)
      :: ("Acknowledged", acknowledged)
      :: without_None
           [ ("SellerId", merchant_id);
             ("MWSAuthToken", mws_auth_token) ] in
  let request := ReportRequest params (config (this s)) in
  update_report_acknowledgements report_id acknowledged merchant_id
    mws_auth_token s
  = (response (fst (send_post request (world s))),
     {| this := this s;
        world := snd (send_post request (world s));
        calls := (calls s ++ [NewRequest params (config (this s));
                              SendPost request])%list |}).
Proof.
  unfold update_report_acknowledgements. rewrite operation_run. cbv zeta.
  merge_literal.
Qed.

(** Every call of a public operation is one dispatch. *)
Lemma invoke_run i (s : session Request World) :
  exists params,
    invoke i s
    = (response (fst (send_post (ReportRequest params (config (this s)))
                        (world s))),
       {| this := this s;
          world := snd (send_post (ReportRequest params (config (this s)))
                          (world s));
          calls := (calls s ++ [NewRequest params (config (this s));
                                SendPost (ReportRequest params
                                            (config (this s)))])%list |}).
Proof.
  destruct i; simpl;
    unfold get_report_list, get_report, update_report_acknowledgements;
    rewrite operation_run; by eexists.
Qed.

Lemma invoke_all_cons i rest (s : session Request World) :
  invoke_all (i :: rest) s =
  let (r, s1) := invoke i s in
  let (rs, s2) := invoke_all rest s1 in
  (r :: rs, s2).
Proof. reflexivity. Qed.

(** X18. Any number of public operations called one after the other on a
    client give one response each, leave the client as it was, construct
    one request and call [send_post] once per operation, only add to the
    calls made before, and build every request with the config mapping of
    that client. *)
Theorem invoke_all_calls invocations : forall (s : session Request World),
  length (fst (invoke_all invocations s)) = length invocations /\
  this (snd (invoke_all invocations s)) = this s /\
  requests_constructed (calls (snd (invoke_all invocations s)))
    = requests_constructed (calls s) + length invocations /\
  send_post_count (calls (snd (invoke_all invocations s)))
    = send_post_count (calls s) + length invocations /\
  exists added,
    calls (snd (invoke_all invocations s)) = (calls s ++ added)%list /\
    length added = 2 * length invocations /\
    Forall (fun c => match c with
                     | NewRequest _ cfg => cfg = config (this s)
                     | SendPost _ => True
                     end) added.
Proof.
  induction invocations as [|i rest IH]; intros s.
  - simpl. repeat split; [lia..|]. exists []. by rewrite app_nil_r.
  - destruct (invoke_run i s) as [params Hi].
    rewrite invoke_all_cons, Hi.
    set (s1 := {| this := this s;
                  world := snd (send_post (ReportRequest params (config (this s)))
                                  (world s));
                  calls := (calls s ++ [ NewRequest params (config (this s));
                                         SendPost (ReportRequest params
                                                     (config (this s))) ])%list |}).
    destruct (IH s1) as (Hlen & Hthis & Hnew & Hsend & added & Hcalls & Hadd & Hcfg).
    destruct (invoke_all rest s1) as [rs s2]. simpl in *.
    destruct (count_after_dispatch Request (calls s) params (config (this s))
                (ReportRequest params (config (this s)))) as [Hn Hs].
    repeat split; [lia|done|lia|lia|].
    exists ([ NewRequest params (config (this s));
              SendPost (ReportRequest params (config (this s))) ] ++ added)%list.
    split; [by rewrite Hcalls, <- app_assoc|]. split; [simpl; lia|].
    by repeat constructor.
Qed.

End OperationFacts.
